(** * kmc_sdls_test_app: frame model, argument resolver and orchestrator

    A shallow embedding of [kmc_sdls_test_app.py], the command-line
    exerciser of the KMC SDLS client.  Python strings are Rocq strings of
    ASCII characters, Python integers are [Z], exceptions are the [Raise]
    side of [result], and the mutable frame object together with standard
    output and the external SDLS client is threaded through [main] as an
    explicit world. *)

From Stdlib Require Import ZArith List String Ascii Bool Lia DecimalString.
Import ListNotations.

Open Scope string_scope.
Open Scope Z_scope.

(** ** Exceptions and fallible results *)

Inductive exn : Type :=
| ArgumentException (msg : string)   (* class ArgumentException(Exception) *)
| ArgumentTypeError (msg : string)   (* argparse.ArgumentTypeError *)
| ValueError                         (* int() on an invalid literal *)
| BinasciiError                      (* binascii.Error from unhexlify *)
| UnboundLocalError                  (* a local variable read before assignment *)
| ServiceError (code : Z).           (* anything the SDLS client raises *)

Inductive result (A : Type) : Type :=
| Ok (a : A)
| Raise (e : exn).
Arguments Ok {A} a.
Arguments Raise {A} e.

Definition rbind {A B} (r : result A) (k : A -> result B) : result B :=
  match r with
  | Ok a => k a
  | Raise e => Raise e
  end.

Declare Scope result_scope.
Delimit Scope result_scope with result.
Notation "x <- r ;; k" := (rbind r (fun x => k))
  (at level 61, r at next level, right associativity) : result_scope.

(** ** Python built-ins used by the script *)

Module Py.

Definition chars (s : string) : list ascii := list_ascii_of_string s.
Definition str (l : list ascii) : string := string_of_list_ascii l.

Definition code (c : ascii) : Z := Z.of_N (N_of_ascii c).

(** [str.isspace] on ASCII: tab, line feed, vertical tab, form feed,
    carriage return, the four separators 0x1c-0x1f and space. *)
Definition isspace (c : ascii) : bool :=
  let n := code c in
  ((9 <=? n) && (n <=? 13)) || ((28 <=? n) && (n <=? 32)).

Fixpoint lstrip_chars (l : list ascii) : list ascii :=
  match l with
  | c :: l' => if isspace c then lstrip_chars l' else l
  | [] => []
  end.

Definition rstrip_chars (l : list ascii) : list ascii :=
  rev (lstrip_chars (rev l)).

(** [s.rstrip()] *)
Definition rstrip (s : string) : string := str (rstrip_chars (chars s)).

(** [s.startswith(p)] *)
Definition startswith (p s : string) : bool := String.prefix p s.

(** [s.upper()] on ASCII letters *)
Definition upper_char (c : ascii) : ascii :=
  let n := code c in
  if (97 <=? n) && (n <=? 122) then ascii_of_N (Z.to_N (n - 32)) else c.

Definition upper (s : string) : string := str (map upper_char (chars s)).

(** Truth value of [None] or a string: [None] and [''] are false. *)
Definition truthy (o : option string) : bool :=
  match o with
  | Some s => negb (String.eqb s "")
  | None => false
  end.

(** Value of a character as a digit, as [int] reads it: decimal digits
    and letters of either case; 37 stands for "not a digit". *)
Definition digit_value (c : ascii) : Z :=
  let n := code c in
  if (48 <=? n) && (n <=? 57) then n - 48
  else if (97 <=? n) && (n <=? 122) then n - 87
  else if (65 <=? n) && (n <=? 90) then n - 55
  else 37.

Definition is_underscore (c : ascii) : bool := code c =? 95.

(** The digit part of an integer literal: digits below [base], single
    underscores between them, at least one digit, no underscore at
    either end.  Returns the value and the unread rest. *)
Fixpoint scan_digits (base acc : Z) (seen prev_us : bool) (l : list ascii)
  : option (Z * list ascii) :=
  match l with
  | c :: l' =>
      if is_underscore c then
        if prev_us then None else scan_digits base acc seen true l'
      else if digit_value c <? base then
        scan_digits base (acc * base + digit_value c) true false l'
      else if prev_us || negb seen then None else Some (acc, l)
  | [] => if prev_us || negb seen then None else Some (acc, [])
  end.

(** The base prefix, accepted for base 2 only here ([0b] or [0B]),
    with the one underscore allowed after it. *)
Definition skip_prefix (base : Z) (l : list ascii) : list ascii :=
  match l with
  | c0 :: c1 :: l' =>
      if (base =? 2) && (code c0 =? 48) && ((code c1 =? 98) || (code c1 =? 66))
      then match l' with
           | c2 :: l'' => if is_underscore c2 then l'' else l'
           | [] => l'
           end
      else l
  | _ => l
  end.

Definition skip_sign (l : list ascii) : bool * list ascii :=
  match l with
  | c :: l' =>
      if code c =? 43 then (false, l')
      else if code c =? 45 then (true, l')
      else (false, l)
  | [] => (false, [])
  end.

(** The white space [int] skips around an ASCII literal: tab, line feed,
    vertical tab, form feed, carriage return and space, and not the
    separators 0x1c-0x1f that [str.isspace] also counts. *)
Definition is_c_space (c : ascii) : bool :=
  let n := code c in
  ((9 <=? n) && (n <=? 13)) || (n =? 32).

Fixpoint skip_space (l : list ascii) : list ascii :=
  match l with
  | c :: l' => if is_c_space c then skip_space l' else l
  | [] => []
  end.

(** The digits of a literal as the interpreter counts them against its
    limit: the digit characters of the run that [scan_digits] reads,
    underscores left out. *)
Fixpoint count_digits (base : Z) (l : list ascii) : nat :=
  match l with
  | c :: l' =>
      if is_underscore c then count_digits base l'
      else if digit_value c <? base then S (count_digits base l')
      else O
  | [] => O
  end.

(** [sys.get_int_max_str_digits()], which the script leaves at its
    default. *)
Definition int_max_str_digits : Z := 4300.

(** [int(s, base)] for base 2 and base 10: surrounding whitespace, an
    optional sign, an optional base prefix, then the digits.  A decimal
    literal of more than [int_max_str_digits] digits is refused; a
    binary one has no limit. *)
Definition int (base : Z) (s : string) : result Z :=
  let '(neg, l) := skip_sign (skip_space (chars s)) in
  let l := skip_prefix base l in
  match l with
  | c :: _ =>
      if is_underscore c then Raise ValueError
      else match scan_digits base 0 false false l with
           | Some (n, rest) =>
               match skip_space rest with
               | [] =>
                   if (if base =? 2 then false
                       else int_max_str_digits <? Z.of_nat (count_digits base l))
                   then Raise ValueError
                   else Ok (if neg then - n else n)
               | _ :: _ => Raise ValueError
               end
           | None => Raise ValueError
           end
  | [] => Raise ValueError
  end.

(** Binary digits of a positive number, most significant first. *)
Fixpoint bits_of_pos (p : positive) : list bool :=
  match p with
  | xH => [true]
  | xO p' => bits_of_pos p' ++ [false]
  | xI p' => bits_of_pos p' ++ [true]
  end.

Definition bits_of_abs (n : Z) : list bool :=
  match n with
  | Z0 => [false]
  | Zpos p | Zneg p => bits_of_pos p
  end.

Definition bit_char (b : bool) : ascii := if b then "1"%char else "0"%char.

Definition nibble_char (n : Z) : ascii :=
  if n <? 10 then ascii_of_N (Z.to_N (48 + n)) else ascii_of_N (Z.to_N (87 + n)).

Definition bit_val (b : bool) : Z := if b then 1 else 0.

(** Groups a list of bits whose length is a multiple of four into
    lower-case hexadecimal digits. *)
Fixpoint nibbles (l : list bool) : list ascii :=
  match l with
  | b3 :: b2 :: b1 :: b0 :: l' =>
      nibble_char (8 * bit_val b3 + 4 * bit_val b2 + 2 * bit_val b1 + bit_val b0)
        :: nibbles l'
  | _ => []
  end.

Definition pad4 (l : list bool) : list bool :=
  repeat false ((4 - (List.length l) mod 4) mod 4)%nat ++ l.

Inductive radix := Bin | Hex.

Definition digits_of_abs (r : radix) (n : Z) : list ascii :=
  match r with
  | Bin => map bit_char (bits_of_abs n)
  | Hex => nibbles (pad4 (bits_of_abs n))
  end.

(** Integer formatting with the format specifications the script uses:
    ['{0:0Wb}'] ([zero] set: sign first, then zeros up to width [W]),
    ['{0:Wb}'] (right-aligned with spaces) and [format(n, 'x')]
    (width 0). *)
Definition format (zero : bool) (width : nat) (r : radix) (n : Z) : string :=
  let sign := if n <? 0 then ["-"%char] else [] in
  let body := digits_of_abs r n in
  let fill := (width - List.length sign - List.length body)%nat in
  str (if zero
       then sign ++ repeat "0"%char fill ++ body
       else repeat " "%char fill ++ sign ++ body).

Definition hex_digit (c : ascii) : option Z :=
  let d := digit_value c in
  if d <? 16 then Some d else None.

(** [binascii.unhexlify]: two hexadecimal digits of either case per
    byte; an odd length or any other character raises. *)
Fixpoint unhexlify_chars (l : list ascii) : result (list Byte.byte) :=
  match l with
  | [] => Ok []
  | hi :: lo :: l' =>
      match hex_digit hi, hex_digit lo with
      | Some h, Some d =>
          match unhexlify_chars l' with
          | Ok bs => Ok (byte_of_ascii (ascii_of_N (Z.to_N (16 * h + d))) :: bs)
          | Raise e => Raise e
          end
      | _, _ => Raise BinasciiError
      end
  | [_] => Raise BinasciiError
  end.

Definition unhexlify (s : string) : result (list Byte.byte) :=
  unhexlify_chars (chars s).

End Py.


Import Py (radix(..)).
Local Open Scope result_scope.

(** ** Frame model *)

(** The three frame classes; [f_type] in [main] ranges over their names. *)
Inductive ftype : Type := FTC | FTM | FAOS.

Definition ftype_name (t : ftype) : string :=
  match t with
  | FTC => "TC"
  | FTM => "TM"
  | FAOS => "AOS"
  end.

(** Module-level default tables.  A Python dict keeps insertion order, so
    each is an association list from field name to binary string. *)
Definition aos_defaults : list (string * string) :=
  [ ("version", "00");
    ("sc_id", "00101100");
    ("vc_id", "000000");
    ("vcfc", "000000000000000000000000");
    ("replay_flag", "0");
    ("vcfc_flag", "1");
    ("reserved_spare", "00");
    ("vcfc_cycle", "0000") ].

Definition tm_defaults : list (string * string) :=
  [ ("version", "00");
    ("sc_id", "0000101100");
    ("vc_id", "000");
    ("ocf_flag", "0");
    ("mcfc", "00000000");
    ("vcfc", "00000000");
    ("shf", "0");
    ("synch", "0");
    ("pof", "0");
    ("sl_id", "00");
    ("fhp", "00000000000") ].

(** An instance of a subclass of [Frame].  [cls] is the class of the
    object; the other fields are the attributes that [Frame] declares and
    the constructors fill in.  [hex_value] stays [None] until
    [override_hex]. *)
Record Frame : Type := mkFrame {
  cls : ftype;
  sc_id : string;
  vc_id : string;
  hex_value : option string;
  override : bool;
  frame_header_hex : string;
  frame_body_hex : string;
  default_frame_hex : string
}.

Definition override_scid (self : Frame) (scid : string) : Frame :=
  mkFrame (cls self) scid (vc_id self) (hex_value self) true
          (frame_header_hex self) (frame_body_hex self) (default_frame_hex self).

Definition override_vcid (self : Frame) (vcid : string) : Frame :=
  mkFrame (cls self) (sc_id self) vcid (hex_value self) true
          (frame_header_hex self) (frame_body_hex self) (default_frame_hex self).

Definition override_hex (self : Frame) (hex : string) : Frame :=
  mkFrame (cls self) (sc_id self) (vc_id self) (Some hex) true
          (frame_header_hex self) (frame_body_hex self) (default_frame_hex self).

Definition set_body (self : Frame) (hex : string) : Frame :=
  mkFrame (cls self) (sc_id self) (vc_id self) (hex_value self) (override self)
          (frame_header_hex self) hex (default_frame_hex self).

Module TC.
(* Default frame header (202c040800) fields in binary *)
Definition version := "00".
Definition bypass_flag := "1".
Definition ctrl_cmd_flag := "0".
Definition spare := "00".
Definition frame_length := "0000001000".
Definition frame_sequence_number := "00000000".

Definition init : Frame :=
  let body := "0001bd37" in
  let header := "202c040800" in
  mkFrame FTC "0000101100" "000001" None false header body (header ++ body).

Definition to_hex (self : Frame) : result string :=
  match hex_value self with
  | Some h => Ok h
  | None =>
      if negb (override self) then Ok (default_frame_hex self)
      else
        let frame_header_bin :=
          version ++ bypass_flag ++ ctrl_cmd_flag ++ spare ++ sc_id self
            ++ vc_id self ++ frame_length ++ frame_sequence_number in
        n <- Py.int 2 frame_header_bin ;;
        let frame_header_hex := Py.format false 0 Hex n in
        Ok (frame_header_hex ++ frame_body_hex self)
  end.
End TC.

Module TM.
Definition init : Frame :=
  let body := "00000000000000000000000000001111111111111111111111111111111111111111111111111111111111111111111111111111111111111111111111111111111111111111111111111111111100000000000000000000000000000000" in
  let header := "4ff000000000" in
  mkFrame FTM "0011111111" "000" None false header body (header ++ body).

Definition to_hex (self : Frame) : result string :=
  match hex_value self with
  | Some h => Ok h
  | None =>
      if negb (override self) then Ok (default_frame_hex self)
      else
        let frame_header_bin := "" in
        n <- Py.int 2 frame_header_bin ;;
        let frame_header_hex := Py.format false 0 Hex n in
        Ok (frame_header_hex ++ frame_body_hex self)
  end.
End TM.

Module AOS.
Definition version := "01".
Definition vcfc := "000000".
Definition replay_flag := "0".
Definition vcfc_flag := "0".
Definition spare := "00".
Definition vcc_cycle := "0000".

Definition init : Frame :=
  let body := "00000000000000000000000000001111111111111111111111111111111111111111111111111111111111111111111111111111111111111111111111111111111111111111111111111111111100000000000000000000000000000000" in
  let header := "7fc000000000" in
  mkFrame FAOS "111111111" "000000" None false header body (header ++ body).

Definition to_hex (self : Frame) : result string :=
  match hex_value self with
  | Some h => Ok h
  | None =>
      if negb (override self) then Ok (default_frame_hex self)
      else
        let frame_header_bin := "" in
        n <- Py.int 2 frame_header_bin ;;
        let frame_header_hex := Py.format false 0 Hex n in
        Ok (frame_header_hex ++ frame_body_hex self)
  end.
End AOS.

(** Construction by class, and the dynamic dispatch of the abstract
    method [to_hex]. *)
Definition new_frame (t : ftype) : Frame :=
  match t with
  | FTC => TC.init
  | FTM => TM.init
  | FAOS => AOS.init
  end.

Definition to_hex (self : Frame) : result string :=
  match cls self with
  | FTC => TC.to_hex self
  | FTM => TM.to_hex self
  | FAOS => AOS.to_hex self
  end.

(** ** Argument resolver *)

Definition scid_type (scid : string) : result string :=
  let msg := "SC ID must be a number between 0 and 1023 inclusive" in
  match (a <- Py.int 10 scid ;;
         if a >=? 0 then (b <- Py.int 10 scid ;; Ok (b <=? 1023)) else Ok false) with
  | Ok _ => Ok scid          (* the value of the comparison is not used *)
  | Raise _ => Raise (ArgumentTypeError msg)
  end.

Definition vcid_type (vcid : string) : result string :=
  let msg := "VC ID must be a number between 0 and 63 inclusive" in
  match (a <- Py.int 10 vcid ;;
         if a >=? 0 then (b <- Py.int 10 vcid ;; Ok (b <=? 63)) else Ok false) with
  | Ok _ => Ok vcid
  | Raise _ => Raise (ArgumentTypeError msg)
  end.

Definition frame_type (type : string) : result string :=
  let msg := "Frame type must be either 'TC', 'TM', or 'AOS'" in
  if negb (existsb (String.eqb (Py.upper type)) ["TC"; "TM"; "AOS"])
  then Raise (ArgumentTypeError msg)
  else Ok type.

(** The namespace [parse_args] returns.  [properties] is the text of the
    opened properties file. *)
Record Args : Type := mkArgs {
  frame : option string;
  properties : string;
  process_only : bool;
  apply_only : bool;
  scid : option string;
  vcid : option string;
  type : option string
}.

(** The options of [build_options_parser], as they occur on a command
    line, each with the raw text of its value. *)
Inductive cli_option : Type :=
| OptFrame (value : string)          (* -f, --frame *)
| OptProperties (path : string)      (* -p, --properties *)
| OptProcessOnly                     (* -P, --processOnly *)
| OptApplyOnly                       (* -A, --applyOnly *)
| OptScid (value : string)           (* -s, --scid *)
| OptVcid (value : string)           (* -V, --vcid *)
| OptType (value : string).          (* -t, --type *)

(** The files that can be opened for reading, by path, with their text. *)
Definition filesystem : Type := string -> option string.

(** [argparse.FileType('r')] *)
Definition file_type (fs : filesystem) (path : string) : result string :=
  match fs path with
  | Some text => Ok text
  | None => Raise (ArgumentTypeError "can't open file")
  end.

Record Namespace : Type := mkNamespace {
  ns_frame : option string;
  ns_properties : option string;
  ns_process_only : bool;
  ns_apply_only : bool;
  ns_scid : option string;
  ns_vcid : option string;
  ns_type : option string
}.

Definition empty_namespace : Namespace :=
  mkNamespace None None false false None None None.

(** One option: its [type=] function converts the value, and the result
    replaces what an earlier occurrence stored. *)
Definition parse_option (fs : filesystem) (ns : Namespace) (o : cli_option)
  : result Namespace :=
  let '(mkNamespace f p po ao s v t) := ns in
  match o with
  | OptFrame x => Ok (mkNamespace (Some x) p po ao s v t)
  | OptProperties path =>
      text <- file_type fs path ;; Ok (mkNamespace f (Some text) po ao s v t)
  | OptProcessOnly => Ok (mkNamespace f p true ao s v t)
  | OptApplyOnly => Ok (mkNamespace f p po true s v t)
  | OptScid x => x' <- scid_type x ;; Ok (mkNamespace f p po ao (Some x') v t)
  | OptVcid x => x' <- vcid_type x ;; Ok (mkNamespace f p po ao s (Some x') t)
  | OptType x => x' <- frame_type x ;; Ok (mkNamespace f p po ao s v (Some x'))
  end.

Fixpoint parse_options (fs : filesystem) (ns : Namespace) (argv : list cli_option)
  : result Namespace :=
  match argv with
  | [] => Ok ns
  | o :: argv' => ns' <- parse_option fs ns o ;; parse_options fs ns' argv'
  end.

(** [parser.parse_args()]: the options in command-line order, then the
    default properties file when no [-p] was given. *)
Definition parse_args (fs : filesystem) (default_properties : string)
  (argv : list cli_option) : result Args :=
  ns <- parse_options fs empty_namespace argv ;;
  text <- match ns_properties ns with
          | Some text => Ok text
          | None => file_type fs default_properties
          end ;;
  Ok (mkArgs (ns_frame ns) text (ns_process_only ns) (ns_apply_only ns)
             (ns_scid ns) (ns_vcid ns) (ns_type ns)).

(** ** The external SDLS client *)

Definition bytes : Type := list Byte.byte.

(** What a process-security call returns: security header, payload data
    unit and security trailer. *)
Record SecurityResult : Type := mkSecurityResult {
  spi : Z;
  iv : bytes;
  sn : bytes;
  pdu : bytes;
  mac : bytes;
  fecf : Z
}.

(** The client is not part of the program.  It is an object with a state
    of its own, built from the configuration lines, with three
    apply-security and three process-security methods; every one of them
    may raise. *)
Record KmcSdlsClient : Type := mkClient {
  client : Type;
  connect : list string -> result client;
  apply_security_tc : client -> bytes -> result (bytes * client);
  apply_security_tm : client -> bytes -> result (bytes * client);
  apply_security_aos : client -> bytes -> result (bytes * client);
  process_security_tc : client -> bytes -> result (SecurityResult * client);
  process_security_tm : client -> bytes -> result (SecurityResult * client);
  process_security_aos : client -> bytes -> result (SecurityResult * client)
}.

(** What the run does to the outside, in order. *)
Inductive event : Type :=
| EvInit (props : list string)                 (* KmcSdlsClient.KmcSdlsClient(props) *)
| EvPrint (text : string)                      (* print(text) in main *)
| EvApply (op : ftype) (data : bytes)          (* k.apply_security_<op>(data) *)
| EvProcess (op : ftype) (data : bytes)        (* k.process_security_<op>(data) *)
| EvReport (fmt : ftype) (r : SecurityResult). (* print_tc, print_tm or print_aos *)

(** ** Lines of the properties file *)

Definition nl : string := String (ascii_of_nat 10) "".

(** Iterating over a file opened in text mode yields its lines.  A line
    ends at a line feed, at a carriage return, or at a carriage return
    followed by a line feed, and is handed over with one line feed in
    place of its line end; a last line without line end comes as it is.
    [after_cr] says that the character before was a carriage return,
    whose line is already handed over. *)
Fixpoint readlines_from (cur : list ascii) (after_cr : bool) (l : list ascii)
  : list string :=
  match l with
  | [] => match cur with
          | [] => []
          | _ :: _ => [Py.str (rev cur)]
          end
  | c :: l' =>
      if Py.code c =? 10 then
        if after_cr then readlines_from cur false l'
        else Py.str (rev (c :: cur)) :: readlines_from [] false l'
      else if Py.code c =? 13 then
        Py.str (rev ("010"%char :: cur)) :: readlines_from [] true l'
      else readlines_from (c :: cur) false l'
  end.

Definition readlines (text : string) : list string :=
  readlines_from [] false (Py.chars text).

(** The loop that fills [kmc_sdls_props]. *)
Fixpoint collect_props (lines : list string) (kmc_sdls_props : list string)
  : list string :=
  match lines with
  | [] => kmc_sdls_props
  | line :: lines' =>
      if negb (Py.startswith "#" line) && negb (String.eqb (Py.rstrip line) "")
      then collect_props lines' (kmc_sdls_props ++ [Py.rstrip line])
      else collect_props lines' kmc_sdls_props
  end.

(** [bytes.hex()] *)
Definition hex_of_byte (b : Byte.byte) : list ascii :=
  let n := Z.of_N (Byte.to_N b) in
  [Py.nibble_char (n / 16); Py.nibble_char (n mod 16)].

Definition hex (data : bytes) : string :=
  Py.str (flat_map hex_of_byte data).

(** ** main *)

Section Main.

Variable K : KmcSdlsClient.

(** The frame object that [main] mutates, and what has happened so far. *)
Record world : Type := mkWorld {
  cur_frame : option Frame;
  out : list event
}.

Definition M (A : Type) : Type := world -> result A * world.

Definition ret {A} (a : A) : M A := fun w => (Ok a, w).

Definition bind {A B} (m : M A) (k : A -> M B) : M B :=
  fun w => match m w with
           | (Ok a, w') => k a w'
           | (Raise e, w') => (Raise e, w')
           end.

Definition raise {A} (e : exn) : M A := fun w => (Raise e, w).

Definition lift {A} (r : result A) : M A := fun w => (r, w).

Definition emit (e : event) : M unit :=
  fun w => (Ok tt, mkWorld (cur_frame w) (out w ++ [e])).

Definition assign_frame (f : Frame) : M unit :=
  fun w => (Ok tt, mkWorld (Some f) (out w)).

Definition read_frame : M Frame :=
  fun w => match cur_frame w with
           | Some f => (Ok f, w)
           | None => (Raise UnboundLocalError, w)
           end.

Definition when (b : bool) (m : M unit) : M unit := if b then m else ret tt.

Declare Scope main_scope.
Delimit Scope main_scope with main.
Notation "x <- m ;; k" := (bind m (fun x => k))
  (at level 61, m at next level, right associativity) : main_scope.
Notation "' p <- m ;; k" := (bind m (fun x => match x with p => k end))
  (at level 61, p pattern, m at next level, right associativity) : main_scope.
Notation "m ;;; k" := (bind m (fun _ => k))
  (at level 61, right associativity) : main_scope.
Local Open Scope main_scope.

(** Lines 213-225: the frame class by the type token. *)
Definition select_frame (cli_args : Args) : M ftype :=
  match type cli_args with
  | Some t =>
      let f_type := Py.upper t in
      if String.eqb f_type "TC" then assign_frame TC.init ;;; ret FTC
      else if String.eqb f_type "TM" then assign_frame TM.init ;;; ret FTM
      else if String.eqb f_type "AOS" then assign_frame AOS.init ;;; ret FAOS
      else raise (ArgumentException "Frame type must be TC, TM, or AOS")
  | None => assign_frame TC.init ;;; ret FTC
  end.

(** Lines 227-255: the exclusion check and the three overrides. *)
Definition apply_overrides (f_type : ftype) (cli_args : Args) : M unit :=
  when (Py.truthy (frame cli_args)
        && (Py.truthy (scid cli_args) || Py.truthy (vcid cli_args)))
    (raise (ArgumentException
      "Can't have both Custom Frame override and (SC_ID or VC_ID) overrides specified at the same time.")) ;;;
  match scid cli_args with
  | Some s =>
      when (Py.truthy (Some s))
        (let fmt := match f_type with
                    | FTC => Py.format true 10 Bin       (* "{0:010b}" *)
                    | FTM => Py.format false 10 Bin      (* '{0:10b}' *)
                    | FAOS => Py.format true 8 Bin       (* '{0:08b}' *)
                    end in
         n <- lift (Py.int 10 s) ;;
         let sc_id := fmt n in
         f <- read_frame ;;
         assign_frame (override_scid f sc_id))
  | None => ret tt
  end ;;;
  match vcid cli_args with
  | Some v =>
      when (Py.truthy (Some v))
        (let fmt := match f_type with
                    | FTC => Py.format true 6 Bin        (* '{0:06b}' *)
                    | FTM => Py.format true 3 Bin        (* '{0:03b}' *)
                    | FAOS => Py.format true 6 Bin       (* '{0:06b}' *)
                    end in
         n <- lift (Py.int 10 v) ;;
         let vc_id := fmt n in
         f <- read_frame ;;
         assign_frame (override_vcid f vc_id))
  | None => ret tt
  end ;;;
  match frame cli_args with
  | Some frame_hex =>
      when (Py.truthy (Some frame_hex))
        (f <- read_frame ;; assign_frame (override_hex f frame_hex))
  | None => ret tt
  end.

(** Lines 257-269: the configuration lines, the client, and the frame
    as bytes. *)
Definition kmc_sdls_props (cli_args : Args) : list string :=
  collect_props (readlines (properties cli_args)) [].

Definition prepare (cli_args : Args) : M (client K * bytes) :=
  let props := kmc_sdls_props cli_args in
  emit (EvInit props) ;;;
  k <- lift (connect K props) ;;
  f <- read_frame ;;
  h <- lift (to_hex f) ;;
  emit (EvPrint ("Using telecommand transfer frame: " ++ nl ++ h ++ nl)) ;;;
  f <- read_frame ;;
  h <- lift (to_hex f) ;;
  tc <- lift (Py.unhexlify h) ;;
  ret (k, tc).

Definition apply_fn (f_type : ftype) : client K -> bytes -> result (bytes * client K) :=
  match f_type with
  | FTC => apply_security_tc K
  | FTM => apply_security_tm K
  | FAOS => apply_security_aos K
  end.

Definition process_fn (f_type : ftype)
  : client K -> bytes -> result (SecurityResult * client K) :=
  match f_type with
  | FTC => process_security_tc K
  | FTM => process_security_tm K
  | FAOS => process_security_aos K
  end.

(** Lines 271-298: which of apply and process run. *)
Definition orchestrate (k : client K) (f_type : ftype) (cli_args : Args) (tc : bytes)
  : M unit :=
  '(result, k) <-
    (if negb (process_only cli_args) || (process_only cli_args && apply_only cli_args)
     then
       let fn := apply_fn f_type in
       emit (EvApply f_type tc) ;;;
       '(result, k) <- lift (fn k tc) ;;
       emit (EvPrint ("SDLS TC Apply Security Result:" ++ nl ++ hex result ++ nl)) ;;;
       ret (result, k)
     else ret (tc, k)) ;;
  if negb (apply_only cli_args) || (process_only cli_args && apply_only cli_args)
  then
    let fn := process_fn f_type in
    emit (EvProcess f_type result) ;;;
    '(reversed_frame, k) <- lift (fn k result) ;;
    emit (EvPrint ("SDLS " ++ ftype_name f_type ++ " Process Security Result:")) ;;;
    emit (EvReport f_type reversed_frame)
  else ret tt.

(** Lines 210-269, everything before the first security call. *)
Definition setup (cli_args : Args) : M (ftype * client K * bytes) :=
  f_type <- select_frame cli_args ;;
  apply_overrides f_type cli_args ;;;
  '(k, tc) <- prepare cli_args ;;
  ret (f_type, k, tc).

Definition main (cli_args : Args) : M unit :=
  '(f_type, k, tc) <- setup cli_args ;;
  orchestrate k f_type cli_args tc.

Definition world0 : world := mkWorld None [].

(** A whole run: the outcome of [main] and the world it leaves. *)
Definition run (cli_args : Args) : result unit * world := main cli_args world0.

End Main.

(** The security calls among the events of a run. *)
Definition is_security_call (e : event) : bool :=
  match e with
  | EvApply _ _ | EvProcess _ _ => true
  | _ => false
  end.

Definition security_calls (l : list event) : list event :=
  filter is_security_call l.

(** A client that accepts every configuration, returns the frame it is
    given from apply, and reports it as the payload from process. *)
Definition echo_client : KmcSdlsClient :=
  let apply := fun (k : unit) (b : bytes) => Ok (b, k) in
  let process := fun (k : unit) (b : bytes) => Ok (mkSecurityResult 0 [] [] b [] 0, k) in
  mkClient unit (fun _ => Ok tt) apply apply apply process process process.

(** ** Reading a header back *)

Definition hex_digit_bits (c : ascii) : option (list ascii) :=
  match Py.hex_digit c with
  | Some d =>
      Some (map (fun k => Py.bit_char (Z.testbit d k)) [3; 2; 1; 0])
  | None => None
  end.

Fixpoint bits_of_hex_chars (l : list ascii) : option (list ascii) :=
  match l with
  | [] => Some []
  | c :: l' =>
      match hex_digit_bits c, bits_of_hex_chars l' with
      | Some b, Some bs => Some (b ++ bs)%list
      | _, _ => None
      end
  end.

(** The bits of a hexadecimal string, four per digit, as a binary string. *)
Definition bits_of_hex (h : string) : option string :=
  option_map Py.str (bits_of_hex_chars (Py.chars h)).

(** The [len] bits at offset [off]. *)
Definition field (off len : nat) (bits : string) : string :=
  String.substring off len bits.

(** Cuts a binary string into consecutive fields of the given widths. *)
Fixpoint cut_fields (widths : list (string * nat)) (bits : string)
  : list (string * string) :=
  match widths with
  | [] => []
  | (name, w) :: widths' =>
      (name, String.substring 0 w bits)
        :: cut_fields widths' (String.substring w (String.length bits - w) bits)
  end.

(** The layout a default table declares: its field names and widths. *)
Definition layout_of (table : list (string * string)) : list (string * nat) :=
  map (fun '(name, value) => (name, String.length value)) table.

Definition header_bits (table : list (string * string)) : nat :=
  list_sum (map snd (layout_of table)).

(** The header fields of a frame in hexadecimal, read at the offsets of
    a table's layout. *)
Definition decode_header (table : list (string * string)) (frame_hex : string)
  : option (list (string * string)) :=
  match bits_of_hex frame_hex with
  | Some bits =>
      if (header_bits table <=? String.length bits)%nat
      then Some (cut_fields (layout_of table) bits)
      else None
  | None => None
  end.

(** The TC header layout: the class constants of [TC] with the two
    instance fields, in the order [TC.to_hex] concatenates them. *)
Definition tc_layout : list (string * nat) :=
  [ ("version", 2%nat); ("bypass_flag", 1%nat); ("ctrl_cmd_flag", 1%nat);
    ("spare", 2%nat); ("sc_id", 10%nat); ("vc_id", 6%nat);
    ("frame_length", 10%nat); ("frame_sequence_number", 8%nat) ].

(** Changes to a frame other than the whole-frame override. *)
Inductive mutation : Type :=
| SetScid (value : string)
| SetVcid (value : string)
| SetBody (value : string).

Definition mutate (f : Frame) (m : mutation) : Frame :=
  match m with
  | SetScid s => override_scid f s
  | SetVcid v => override_vcid f v
  | SetBody b => set_body f b
  end.

(** The TC frame that [main] builds for the SC-ID and VC-ID options it is
    given, with the format strings of lines 233 and 244. *)
Definition tc_with (scid vcid : option Z) : Frame :=
  let f := TC.init in
  let f := match scid with
           | Some n => override_scid f (Py.format true 10 Bin n)
           | None => f
           end in
  match vcid with
  | Some n => override_vcid f (Py.format true 6 Bin n)
  | None => f
  end.

(** The header of [tc_with scid vcid] reads back the overrides, keeps
    the other fields and keeps its length. *)
Definition tc_reads_back (scid vcid : option Z) : bool :=
  match to_hex (tc_with scid vcid) with
  | Ok h =>
      match bits_of_hex h with
      | Some bits =>
          let want_sc := match scid with
                         | Some n => Py.format true 10 Bin n
                         | None => sc_id TC.init
                         end in
          let want_vc := match vcid with
                         | Some n => Py.format true 6 Bin n
                         | None => vc_id TC.init
                         end in
          String.eqb (field 6 10 bits) want_sc
          && String.eqb (field 16 6 bits) want_vc
          && (String.length h =? String.length (default_frame_hex TC.init))%nat
          && String.eqb (String.substring 10 8 h) (frame_body_hex TC.init)
      | None => false
      end
  | Raise _ => false
  end.

Definition upto (n : nat) : list Z := map Z.of_nat (seq 0 n).

(** ** The default tables against the default frames *)

(** The default state of the TM and AOS frames is the state of the two
    tables: the header that [to_hex] emits decodes to the table, and the
    instance fields hold the table's values. *)
Definition default_state_matches_tables : Prop :=
  (exists h, to_hex TM.init = Ok h /\ decode_header tm_defaults h = Some tm_defaults)
  /\ (exists h, to_hex AOS.init = Ok h /\ decode_header aos_defaults h = Some aos_defaults)
  /\ sc_id TM.init = "0000101100" /\ vc_id TM.init = "000"
  /\ sc_id AOS.init = "00101100" /\ vc_id AOS.init = "000000".

(** ** The configuration lines, as the specification words them *)

Fixpoint chomp_chars (l : list ascii) : list ascii :=
  match l with
  | [] => []
  | c :: l' =>
      match l' with
      | [] => if Py.code c =? 10 then [] else [c]
      | _ :: _ => c :: chomp_chars l'
      end
  end.

(** A line without its line feed. *)
Definition chomp (line : string) : string := Py.str (chomp_chars (Py.chars line)).

(** The lines of the properties text, without their line feeds. *)
Definition source_lines (text : string) : list string :=
  map chomp (readlines text).

(** The specification's wording: the lines that are not empty and do not
    start with [#], each as it is. *)
Definition verbatim_props (text : string) : list string :=
  filter (fun l => negb (String.eqb l "") && negb (Py.startswith "#" l))
         (source_lines text).

(** What the loop keeps: the lines that do not start with [#] and have
    something other than white space, each without its trailing white
    space. *)
Definition stripped_props (text : string) : list string :=
  map Py.rstrip
      (filter (fun l => negb (Py.startswith "#" l) && negb (String.eqb (Py.rstrip l) ""))
              (source_lines text)).

(** ** Exclusion of the whole-frame and the field overrides *)

(** A file system in which every path opens as an empty file. *)
Definition empty_files : filesystem := fun _ => Some "".

(** The exclusion as the specification words it: a resolved
    configuration with a whole-frame override and an SC-ID or VC-ID
    override makes the run raise [ArgumentException]. *)
Definition overrides_exclusive : Prop :=
  forall (K : KmcSdlsClient) fs dp argv cli_args,
    parse_args fs dp argv = Ok cli_args ->
    frame cli_args <> None ->
    scid cli_args <> None \/ vcid cli_args <> None ->
    exists msg, fst (run K cli_args) = Raise (ArgumentException msg).

(** ** Resolved configurations *)

(** A type token that [frame_type] lets through. *)
Definition valid_type (t : string) : Prop :=
  String.eqb (Py.upper t) "TC" = true
  \/ (String.eqb (Py.upper t) "TC" = false /\ String.eqb (Py.upper t) "TM" = true)
  \/ (String.eqb (Py.upper t) "TC" = false /\ String.eqb (Py.upper t) "TM" = false
      /\ String.eqb (Py.upper t) "AOS" = true).

(** What the type functions guarantee of a namespace. *)
Definition resolved (ns : Namespace) : Prop :=
  (forall s, ns_scid ns = Some s -> s <> "")
  /\ (forall v, ns_vcid ns = Some v -> v <> "")
  /\ (forall t, ns_type ns = Some t -> valid_type t).

(** The specification's wording of the configuration lines, for every
    run configuration. *)
Definition props_passed_verbatim : Prop :=
  forall cli_args, kmc_sdls_props cli_args = verbatim_props (properties cli_args).

(** The first line the run prints. *)
Definition frame_banner (h : string) : event :=
  EvPrint ("Using telecommand transfer frame: " ++ nl ++ h ++ nl).

(** ** A sample run configuration *)

(** No option given: a TC frame, applied and processed. *)
Definition sample_args : Args := mkArgs None "" false false None None None.

(** Process only. *)
Definition sample_process_only : Args := mkArgs None "" true false None None None.

(** A whole-frame override together with an SC-ID override. *)
Definition sample_conflict : list cli_option := [OptFrame "202c0408000001bd37"; OptScid "44"].

Definition sample_bytes : bytes := [Byte.x20; Byte.x2c; Byte.x04; Byte.x08].

(** ** Shapes of identifier texts *)

Definition is_decimal_digit (c : ascii) : bool :=
  (48 <=? Py.code c) && (Py.code c <=? 57).

Definition is_binary_digit (c : ascii) : bool :=
  (Py.code c =? 48) || (Py.code c =? 49).

(** A text of decimal digits only. *)
Definition all_decimal (s : string) : bool := forallb is_decimal_digit (Py.chars s).

(** A text of binary digits only. *)
Definition all_binary (s : string) : bool := forallb is_binary_digit (Py.chars s).

Definition is_hex_digit (c : ascii) : bool :=
  ((48 <=? Py.code c) && (Py.code c <=? 57))
  || ((97 <=? Py.code c) && (Py.code c <=? 102)).

(** A text of hexadecimal digits only, letters in lower case. *)
Definition all_hex (s : string) : bool := forallb is_hex_digit (Py.chars s).

(** ** Resolved configurations, continued *)

(** The test of line 228. *)
Definition conflicting (cli_args : Args) : bool :=
  Py.truthy (frame cli_args)
  && (Py.truthy (scid cli_args) || Py.truthy (vcid cli_args)).

(** What the resolver guarantees of the configuration it returns: the
    identifiers read as integers and the type token names a class. *)
Definition well_resolved (cli_args : Args) : Prop :=
  (forall s, scid cli_args = Some s -> s <> "" /\ exists n, Py.int 10 s = Ok n)
  /\ (forall v, vcid cli_args = Some v -> v <> "" /\ exists n, Py.int 10 v = Ok n)
  /\ (forall t, type cli_args = Some t -> valid_type t).

(** The format of line 233-237 for a frame type, and of line 244-248. *)
Definition scid_format (f_type : ftype) (n : Z) : string :=
  match f_type with
  | FTC => Py.format true 10 Bin n
  | FTM => Py.format false 10 Bin n
  | FAOS => Py.format true 8 Bin n
  end.

Definition vcid_format (f_type : ftype) (n : Z) : string :=
  match f_type with
  | FTC => Py.format true 6 Bin n
  | FTM => Py.format true 3 Bin n
  | FAOS => Py.format true 6 Bin n
  end.

(** The line printed after apply-security returns. *)
Definition apply_banner (result : bytes) : event :=
  EvPrint ("SDLS TC Apply Security Result:" ++ nl ++ hex result ++ nl).

(** ** Line-end conventions *)

(** A text with its line feeds written as carriage return and line
    feed, and with its line feeds written as carriage returns. *)
Definition crlf_chars (l : list ascii) : list ascii :=
  flat_map (fun c => if Py.code c =? 10 then ["013"%char; "010"%char] else [c]) l.

Definition cr_chars (l : list ascii) : list ascii :=
  map (fun c => if Py.code c =? 10 then "013"%char else c) l.

Definition with_crlf (text : string) : string := Py.str (crlf_chars (Py.chars text)).

Definition with_cr (text : string) : string := Py.str (cr_chars (Py.chars text)).

Definition has_cr (text : string) : bool :=
  existsb (fun c => Py.code c =? 13) (Py.chars text).

(** The configuration with another properties text. *)
Definition with_properties (cli_args : Args) (text : string) : Args :=
  mkArgs (frame cli_args) text (process_only cli_args) (apply_only cli_args)
         (scid cli_args) (vcid cli_args) (type cli_args).

(** ** Report formatters *)



(** [print(label, value)]: the two texts with a space between them. *)
Definition print2 (label value : string) : string := label ++ " " ++ value.




(** ** The script as a whole *)

(** Lines 333-341: what the handlers print for the outcome of [main];
    [describe] is the text of an exception other than
    [ArgumentException]. *)
Definition handlers (describe : exn -> string) (r : result unit) : list event :=
  match r with
  | Ok _ => []
  | Raise (ArgumentException msg) =>
      [EvPrint (print2 "Command Line Argument Error: " msg)]
  | Raise e => [EvPrint (print2 "Encountered an unexpected error: " (describe e))]
  end.

(** The whole script on a command line: events and exit status.  A
    command line that the parser refuses ends inside [parse_args] with
    the parser's own exit, which no handler catches; the [finally]
    clause still runs. *)
Definition script (K : KmcSdlsClient) (describe : exn -> string)
  (fs : filesystem) (default_properties : string) (argv : list cli_option)
  : list event * Z :=
  match parse_args fs default_properties argv with
  | Ok cli_args =>
      let '(r, w) := run K cli_args in
      ((out w ++ handlers describe r)%list, 1)
  | Raise _ => ([], 1)
  end.

(** ** Clients for the sample runs *)

(** A client whose constructor raises. *)
Definition refusing_client : KmcSdlsClient :=
  let apply := fun (k : unit) (b : bytes) => Ok (b, k) in
  let process := fun (k : unit) (b : bytes) => Ok (mkSecurityResult 0 [] [] b [] 0, k) in
  mkClient unit (fun _ => Raise (ServiceError 1)) apply apply apply process process process.

(** A client whose security operations all raise. *)
Definition failing_client : KmcSdlsClient :=
  let apply := fun (k : unit) (b : bytes) => @Raise (bytes * unit) (ServiceError 2) in
  let process := fun (k : unit) (b : bytes) =>
                   @Raise (SecurityResult * unit) (ServiceError 3) in
  mkClient unit (fun _ => Ok tt) apply apply apply process process process.

(** Apply only. *)
Definition sample_apply_only : Args := mkArgs None "" false true None None None.

(** * Properties *)

(** ** Frame model *)

Lemma to_hex_override_hex_value (f : Frame) (h : string) :
  hex_value f = Some h -> to_hex f = Ok h.
Proof.
  intros Hh. unfold to_hex, TC.to_hex, TM.to_hex, AOS.to_hex.
  rewrite Hh. destruct (cls f); reflexivity.
Qed.

Lemma mutate_hex_value (f : Frame) (m : mutation) :
  hex_value (mutate f m) = hex_value f.
Proof. destruct m; reflexivity. Qed.

Lemma mutations_hex_value (ms : list mutation) (f : Frame) :
  hex_value (fold_left mutate ms f) = hex_value f.
Proof.
  revert f. induction ms as [|m ms IH]; intros f; simpl.
  - reflexivity.
  - rewrite IH. apply mutate_hex_value.
Qed.

(** C5: a frame of each of the three types, with no override applied,
    serialises to the literal default of its type, header followed by
    body; for TC this is 202c040800 followed by 0001bd37. *)
Theorem default_frame_literal :
  to_hex TC.init = Ok "202c0408000001bd37"
  /\ to_hex TM.init = Ok "4ff00000000000000000000000000000000000001111111111111111111111111111111111111111111111111111111111111111111111111111111111111111111111111111111111111111111111111111111100000000000000000000000000000000"
  /\ to_hex AOS.init = Ok "7fc00000000000000000000000000000000000001111111111111111111111111111111111111111111111111111111111111111111111111111111111111111111111111111111111111111111111111111111100000000000000000000000000000000"
  /\ frame_header_hex TC.init = "202c040800"
  /\ frame_body_hex TC.init = "0001bd37"
  /\ forall t, to_hex (new_frame t)
               = Ok (frame_header_hex (new_frame t) ++ frame_body_hex (new_frame t)).
Proof.
  repeat split; try reflexivity.
  intros t; destruct t; reflexivity.
Qed.

(** C7: once a whole-frame override is set, [to_hex] returns it as it is,
    whatever the frame was before and whatever SC-ID, VC-ID or body
    changes are made before or after. *)
Theorem whole_frame_override_wins (f : Frame) (h : string) (later : list mutation) :
  to_hex (fold_left mutate later (override_hex f h)) = Ok h.
Proof.
  apply to_hex_override_hex_value.
  rewrite mutations_hex_value. reflexivity.
Qed.

(** C10: for TC, assembling the header field by field from the default
    SC-ID 44 and the default VC-ID 1 gives the same string as the literal
    default. *)
Theorem tc_assembly_agrees_with_literal :
  Py.format true 10 Bin 44 = "0000101100"
  /\ Py.format true 6 Bin 1 = "000001"
  /\ to_hex (override_scid TC.init "0000101100") = Ok "202c0408000001bd37"
  /\ to_hex (override_vcid TC.init "000001") = Ok "202c0408000001bd37"
  /\ to_hex (override_vcid (override_scid TC.init "0000101100") "000001")
     = Ok "202c0408000001bd37"
  /\ to_hex (override_scid (override_vcid TC.init "000001") "0000101100")
     = to_hex TC.init.
Proof. repeat split; reflexivity. Qed.

Lemma in_upto (n : nat) (z : Z) : 0 <= z < Z.of_nat n -> In z (upto n).
Proof.
  intros Hz. unfold upto. apply in_map_iff.
  exists (Z.to_nat z). split; [lia|].
  apply in_seq. lia.
Qed.

Lemma tc_scid_reads_back_all :
  forallb (fun s => tc_reads_back (Some s) None) (upto 1024) = true.
Proof. vm_compute. reflexivity. Qed.

Lemma tc_vcid_reads_back_all :
  forallb (fun v => tc_reads_back None (Some v)) (upto 64) = true.
Proof. vm_compute. reflexivity. Qed.

Lemma tc_both_read_back_all :
  forallb (fun s => forallb (fun v => tc_reads_back (Some s) (Some v)) (upto 64))
          (upto 1024) = true.
Proof. vm_compute. reflexivity. Qed.

(** The TC class does what the other two miss: every SC-ID in 0..1023
    and every VC-ID in 0..63 reads back from the header, alone or
    together, and the frame keeps its length and body. *)
Lemma tc_override_reads_back (s v : Z) :
  0 <= s <= 1023 -> 0 <= v <= 63 ->
  tc_reads_back (Some s) None = true
  /\ tc_reads_back None (Some v) = true
  /\ tc_reads_back (Some s) (Some v) = true.
Proof.
  intros Hs Hv.
  assert (Is : In s (upto 1024)) by (apply in_upto; lia).
  assert (Iv : In v (upto 64)) by (apply in_upto; lia).
  repeat split.
  - exact (proj1 (forallb_forall _ _) tc_scid_reads_back_all s Is).
  - exact (proj1 (forallb_forall _ _) tc_vcid_reads_back_all v Iv).
  - pose proof (proj1 (forallb_forall _ _) tc_both_read_back_all s Is) as H.
    exact (proj1 (forallb_forall _ _) H v Iv).
Qed.

(** C2: on a TM or an AOS frame, [to_hex] after an SC-ID or VC-ID
    override raises [ValueError] for every override value: the header is
    assembled from the empty binary string. *)
Theorem tm_aos_field_override_raises (value : string) :
  to_hex (override_scid TM.init value) = Raise ValueError
  /\ to_hex (override_vcid TM.init value) = Raise ValueError
  /\ to_hex (override_scid AOS.init value) = Raise ValueError
  /\ to_hex (override_vcid AOS.init value) = Raise ValueError.
Proof. repeat split; reflexivity. Qed.

(** C6: the default header that [to_hex] emits for TM does not decode to
    [tm_defaults], nor the one for AOS to [aos_defaults], and the
    instance SC-IDs are not the tables' either. *)
Lemma default_state_differs_from_tables : ~ default_state_matches_tables.
Proof.
  unfold default_state_matches_tables.
  intros (_ & _ & Hsc & _). discriminate Hsc.
Qed.

(** C6, as the code has it: read at the tables' field widths, the default
    TM header is version 01, SC-ID 0011111111 (255), VC-ID 000 and zeros,
    the default AOS header is version 01, SC-ID 11111111 (255), VC-ID
    000000, a zero frame count and a zero signalling field (usage flag
    0); the TM instance fields and the AOS class constants say the
    same. *)
Theorem default_headers_decoded :
  (exists h, to_hex TM.init = Ok h
     /\ decode_header tm_defaults h
        = Some [ ("version", "01"); ("sc_id", "0011111111"); ("vc_id", "000");
                 ("ocf_flag", "0"); ("mcfc", "00000000"); ("vcfc", "00000000");
                 ("shf", "0"); ("synch", "0"); ("pof", "0"); ("sl_id", "00");
                 ("fhp", "00000000000") ])
  /\ (exists h, to_hex AOS.init = Ok h
     /\ decode_header aos_defaults h
        = Some [ ("version", "01"); ("sc_id", "11111111"); ("vc_id", "000000");
                 ("vcfc", "000000000000000000000000"); ("replay_flag", "0");
                 ("vcfc_flag", "0"); ("reserved_spare", "00");
                 ("vcfc_cycle", "0000") ])
  /\ sc_id TM.init = "0011111111" /\ vc_id TM.init = "000"
  /\ vc_id AOS.init = "000000"
  /\ AOS.version = "01" /\ AOS.replay_flag = "0" /\ AOS.vcfc_flag = "0"
  /\ AOS.spare = "00" /\ AOS.vcc_cycle = "0000".
Proof.
  split; [|split].
  - eexists; split; [reflexivity|]. vm_compute. reflexivity.
  - eexists; split; [reflexivity|]. vm_compute. reflexivity.
  - repeat split; reflexivity.
Qed.

(** ** Argument resolver *)

(** C3: the resolver accepts SC-ID 1024 and VC-ID 64, and the run goes
    on to override the TC frame with an 11-bit SC-ID and a 7-bit
    VC-ID. *)
Theorem out_of_range_ids_accepted :
  scid_type "1024" = Ok "1024"
  /\ vcid_type "64" = Ok "64"
  /\ exists cli_args,
       parse_args empty_files "" [OptScid "1024"; OptVcid "64"] = Ok cli_args
       /\ scid cli_args = Some "1024"
       /\ vcid cli_args = Some "64"
       /\ option_map sc_id (cur_frame (snd (run echo_client cli_args)))
          = Some "10000000000"
       /\ option_map vc_id (cur_frame (snd (run echo_client cli_args)))
          = Some "1000000".
Proof.
  split; [reflexivity|]. split; [reflexivity|].
  eexists. split; [reflexivity|].
  repeat split; vm_compute; reflexivity.
Qed.

(** What the two validators do check: the text reads as an integer. *)
Lemma scid_type_accepts (s : string) (n : Z) :
  Py.int 10 s = Ok n -> scid_type s = Ok s /\ vcid_type s = Ok s.
Proof.
  intros H. unfold scid_type, vcid_type. rewrite H. simpl.
  destruct (n >=? 0); simpl; split; reflexivity.
Qed.

Lemma scid_type_rejects (s : string) :
  Py.int 10 s = Raise ValueError ->
  (exists msg, scid_type s = Raise (ArgumentTypeError msg))
  /\ (exists msg, vcid_type s = Raise (ArgumentTypeError msg)).
Proof.
  intros H. unfold scid_type, vcid_type. rewrite H. simpl.
  split; eexists; reflexivity.
Qed.

(** ** Configuration lines *)

Lemma chars_str (l : list ascii) : Py.chars (Py.str l) = l.
Proof. apply list_ascii_of_string_of_list_ascii. Qed.

Lemma str_chars (s : string) : Py.str (Py.chars s) = s.
Proof. apply string_of_list_ascii_of_string. Qed.

Lemma collect_props_acc (lines acc : list string) :
  collect_props lines acc
  = (acc ++ map Py.rstrip
       (filter (fun l => negb (Py.startswith "#" l)
                         && negb (String.eqb (Py.rstrip l) "")) lines))%list.
Proof.
  revert acc. induction lines as [|line lines IH]; intros acc; simpl.
  - now rewrite app_nil_r.
  - destruct (negb (Py.startswith "#" line) && negb (String.eqb (Py.rstrip line) "")).
    + rewrite IH. simpl. now rewrite <- app_assoc.
    + apply IH.
Qed.

Lemma chomp_chars_cases (l : list ascii) :
  chomp_chars l = l
  \/ exists c, Py.code c = 10 /\ l = (chomp_chars l ++ [c])%list.
Proof.
  induction l as [|c l IH].
  - now left.
  - destruct l as [|d l].
    + simpl. destruct (Py.code c =? 10) eqn:E.
      * right. exists c. split; [now apply Z.eqb_eq|reflexivity].
      * now left.
    + change (chomp_chars (c :: d :: l)) with (c :: chomp_chars (d :: l)).
      destruct IH as [IH|[x [Hx IH]]].
      * left. now rewrite IH.
      * right. exists x. split; [exact Hx|].
        rewrite <- app_comm_cons. now rewrite <- IH.
Qed.

Lemma rstrip_chomp (line : string) : Py.rstrip (chomp line) = Py.rstrip line.
Proof.
  unfold Py.rstrip, chomp. rewrite chars_str. f_equal.
  destruct (chomp_chars_cases (Py.chars line)) as [E|[c [Hc E]]].
  - now rewrite E.
  - rewrite E at 2. unfold Py.rstrip_chars. rewrite rev_app_distr. simpl.
    unfold Py.isspace. rewrite Hc. reflexivity.
Qed.

Lemma startswith_hash_cons (c : ascii) (s : string) :
  Py.startswith "#" (String c s) = if ascii_dec "#"%char c then true else false.
Proof.
  unfold Py.startswith. cbn [prefix].
  destruct (ascii_dec "#"%char c); [destruct s|]; reflexivity.
Qed.

Lemma startswith_hash_chomp (line : string) :
  Py.startswith "#" (chomp line) = Py.startswith "#" line.
Proof.
  destruct line as [|c [|d rest]]; [reflexivity| |].
  - unfold chomp.
    cbn [Py.chars Py.str list_ascii_of_string chomp_chars string_of_list_ascii].
    destruct (Py.code c =? 10) eqn:E; [|reflexivity].
    rewrite startswith_hash_cons.
    destruct (ascii_dec "#"%char c) as [<-|]; [discriminate E|reflexivity].
  - unfold chomp.
    cbn [Py.chars Py.str list_ascii_of_string chomp_chars string_of_list_ascii].
    now rewrite !startswith_hash_cons.
Qed.

Lemma filter_map_comm {A B} (g : A -> B) (p : B -> bool) (l : list A) :
  filter p (map g l) = map g (filter (fun a => p (g a)) l).
Proof.
  induction l as [|a l IH]; simpl; [reflexivity|].
  destruct (p (g a)); simpl; now rewrite IH.
Qed.

Lemma collected_is_stripped (text : string) :
  collect_props (readlines text) [] = stripped_props text.
Proof.
  rewrite collect_props_acc. simpl.
  unfold stripped_props, source_lines.
  rewrite filter_map_comm, map_map.
  rewrite (map_ext (fun l => Py.rstrip (chomp l)) Py.rstrip rstrip_chomp).
  f_equal. apply filter_ext. intros l.
  now rewrite startswith_hash_chomp, rstrip_chomp.
Qed.

(** ** Runs of main *)

Ltac unfold_m :=
  unfold bind, ret, raise, lift, emit, assign_frame, read_frame, when in *.

Ltac break_match :=
  match goal with
  | |- context [match ?x with _ => _ end] =>
      lazymatch x with
      | context [match _ with _ => _ end] => fail
      | _ => destruct x eqn:?
      end
  end.

Lemma select_frame_cases (cli_args : Args) (w : world) :
  (exists t, select_frame cli_args w = (Ok t, mkWorld (Some (new_frame t)) (out w)))
  \/ (exists msg, select_frame cli_args w = (Raise (ArgumentException msg), w)).
Proof.
  unfold select_frame. unfold_m.
  destruct (type cli_args) as [t|].
  - destruct (String.eqb (Py.upper t) "TC"); [left; exists FTC; reflexivity|].
    destruct (String.eqb (Py.upper t) "TM"); [left; exists FTM; reflexivity|].
    destruct (String.eqb (Py.upper t) "AOS"); [left; exists FAOS; reflexivity|].
    right. eexists. reflexivity.
  - left. exists FTC. reflexivity.
Qed.

Lemma apply_overrides_conflict (f_type : ftype) (cli_args : Args) (w : world) :
  Py.truthy (frame cli_args)
  && (Py.truthy (scid cli_args) || Py.truthy (vcid cli_args)) = true ->
  exists msg, apply_overrides f_type cli_args w = (Raise (ArgumentException msg), w).
Proof.
  intros H. unfold apply_overrides. unfold_m. rewrite H.
  eexists. reflexivity.
Qed.

Lemma apply_overrides_world (f_type : ftype) (cli_args : Args) (w : world) (f : Frame) :
  cur_frame w = Some f ->
  out (snd (apply_overrides f_type cli_args w)) = out w
  /\ exists f', cur_frame (snd (apply_overrides f_type cli_args w)) = Some f'
                /\ cls f' = cls f.
Proof.
  intros Hf. unfold apply_overrides. unfold_m.
  destruct w as [cf o]. simpl in Hf. subst cf.
  repeat (break_match; simpl); split; try reflexivity; eexists; split; reflexivity.
Qed.

Lemma prepare_cases (K : KmcSdlsClient) (cli_args : Args) (w : world) :
  let props := kmc_sdls_props cli_args in
  match prepare K cli_args w with
  | (Ok (k, tc), w') =>
      exists f h,
        cur_frame w = Some f /\ to_hex f = Ok h /\ Py.unhexlify h = Ok tc
        /\ connect K props = Ok k
        /\ w' = mkWorld (cur_frame w) (out w ++ [EvInit props; frame_banner h])%list
  | (Raise e, w') =>
      cur_frame w' = cur_frame w
      /\ (out w' = (out w ++ [EvInit props])%list
          \/ exists h, out w' = (out w ++ [EvInit props; frame_banner h])%list)
  end.
Proof.
  unfold prepare, frame_banner. unfold_m. destruct w as [cf o]. simpl.
  destruct (connect K (kmc_sdls_props cli_args)) as [k|e]; [|now auto].
  destruct cf as [f|]; [|now auto].
  destruct (to_hex f) as [h|e] eqn:Eh; [|now auto].
  simpl. rewrite Eh.
  destruct (Py.unhexlify h) as [tc|e] eqn:Et.
  - exists f, h. rewrite <- app_assoc. now auto.
  - split; [reflexivity|]. right. exists h. now rewrite <- app_assoc.
Qed.

Lemma setup_cases (K : KmcSdlsClient) (cli_args : Args) :
  let props := kmc_sdls_props cli_args in
  match setup K cli_args world0 with
  | (Ok (f_type, k, tc), w') =>
      exists f h,
        cur_frame w' = Some f /\ cls f = f_type
        /\ to_hex f = Ok h /\ Py.unhexlify h = Ok tc
        /\ connect K props = Ok k
        /\ out w' = [EvInit props; frame_banner h]
  | (Raise e, w') =>
      out w' = [] \/ out w' = [EvInit props]
      \/ exists h, out w' = [EvInit props; frame_banner h]
  end.
Proof.
  intros props. unfold setup.
  unfold bind at 1.
  destruct (select_frame_cases cli_args world0) as [[t E]|[msg E]]; rewrite E;
    [|now left].
  unfold bind at 1.
  pose proof (apply_overrides_world t cli_args
                (mkWorld (Some (new_frame t)) (out world0)) (new_frame t) eq_refl)
    as [Ho [f' [Hf' Hc]]].
  destruct (apply_overrides t cli_args _) as [[[]|e] w1]; simpl in Ho, Hf'; [|now left].
  unfold bind at 1.
  pose proof (prepare_cases K cli_args w1) as Hp. cbv zeta in Hp.
  destruct (prepare K cli_args w1) as [[[k tc]|e] w2].
  - destruct Hp as (f & h & Hf & Hh & Ht & Hk & ->).
    unfold ret. exists f, h. simpl. rewrite Ho. simpl.
    rewrite Hf in Hf'. injection Hf' as <-.
    repeat split; auto. rewrite Hc. now destruct t.
  - destruct Hp as [_ [Hp|[h Hp]]]; rewrite Ho in Hp; simpl in Hp; eauto.
Qed.

Lemma orchestrate_out (K : KmcSdlsClient) (k : client K) (f_type : ftype)
  (cli_args : Args) (tc : bytes) (w : world) :
  exists tail,
    out (snd (orchestrate K k f_type cli_args tc w)) = (out w ++ tail)%list
    /\ cur_frame (snd (orchestrate K k f_type cli_args tc w)) = cur_frame w
    /\ (forall p, ~ In (EvInit p) tail)
    /\ (process_only cli_args = true -> apply_only cli_args = false ->
        security_calls tail = [EvProcess f_type tc]).
Proof.
  unfold orchestrate. unfold_m. destruct w as [cf o].
  destruct (process_only cli_args), (apply_only cli_args); simpl;
    repeat (break_match; simpl);
    rewrite <- ?app_assoc; simpl;
    eexists; (split; [reflexivity|]); (split; [reflexivity|]);
    (split; [intros p Hp; simpl in Hp; intuition discriminate|]);
    intros; try discriminate; reflexivity.
Qed.

(** C1: apply runs exactly when process_only is false or apply_only is
    true, process exactly when apply_only is false or process_only is
    true; apply comes first, each is called once, and each is the
    operation of the frame type: the run goes on from what that apply
    operation returned, process is that process operation applied to it
    (to the frame itself when apply did not run) on the client apply
    left, and the run ends as that call ends, printing its result. *)
Theorem orchestrator_decision (K : KmcSdlsClient) (k k' : client K) (f_type : ftype)
  (cli_args : Args) (tc r : bytes) (w : world)
  (answer : result (SecurityResult * client K)) :
  (process_only cli_args = false \/ apply_only cli_args = true ->
   match f_type with
   | FTC => apply_security_tc K
   | FTM => apply_security_tm K
   | FAOS => apply_security_aos K
   end k tc = Ok (r, k')) ->
  (apply_only cli_args = false \/ process_only cli_args = true ->
   match f_type with
   | FTC => process_security_tc K
   | FTM => process_security_tm K
   | FAOS => process_security_aos K
   end (if negb (process_only cli_args) || apply_only cli_args then k' else k)
       (if negb (process_only cli_args) || apply_only cli_args then r else tc)
   = answer) ->
  exists tail,
    orchestrate K k f_type cli_args tc w
    = (if negb (apply_only cli_args) || process_only cli_args
       then match answer with
            | Ok _ => Ok tt
            | Raise e => Raise e
            end
       else Ok tt,
       mkWorld (cur_frame w) (out w ++ tail))
    /\ tail
       = ((if negb (process_only cli_args) || apply_only cli_args
           then [EvApply f_type tc;
                 EvPrint ("SDLS TC Apply Security Result:" ++ nl ++ hex r ++ nl)]
           else [])
          ++ (if negb (apply_only cli_args) || process_only cli_args
              then EvProcess f_type
                     (if negb (process_only cli_args) || apply_only cli_args
                      then r else tc)
                   :: match answer with
                      | Ok (reversed_frame, _) =>
                          [EvPrint ("SDLS " ++ ftype_name f_type
                                    ++ " Process Security Result:");
                           EvReport f_type reversed_frame]
                      | Raise _ => []
                      end
              else []))%list
    /\ ((exists op data, In (EvApply op data) (security_calls tail))
        <-> (process_only cli_args = false \/ apply_only cli_args = true))
    /\ ((exists op data, In (EvProcess op data) (security_calls tail))
        <-> (apply_only cli_args = false \/ process_only cli_args = true))
    /\ security_calls tail
       = ((if negb (process_only cli_args) || apply_only cli_args
           then [EvApply f_type tc] else [])
          ++ (if negb (apply_only cli_args) || process_only cli_args
              then [EvProcess f_type
                      (if negb (process_only cli_args) || apply_only cli_args
                       then r else tc)]
              else []))%list.
Proof.
  intros Happly Hprocess.
  assert (Ha : process_only cli_args = false \/ apply_only cli_args = true ->
               apply_fn K f_type k tc = Ok (r, k'))
    by (intros H; destruct f_type; exact (Happly H)).
  assert (Hp : apply_only cli_args = false \/ process_only cli_args = true ->
               process_fn K f_type
                 (if negb (process_only cli_args) || apply_only cli_args
                  then k' else k)
                 (if negb (process_only cli_args) || apply_only cli_args
                  then r else tc) = answer)
    by (intros H; destruct f_type; exact (Hprocess H)).
  clear Happly Hprocess.
  unfold orchestrate. unfold_m. destruct w as [cf o].
  destruct (process_only cli_args), (apply_only cli_args);
    cbn [negb orb andb cur_frame out] in *;
    try (rewrite Ha by auto; cbn [cur_frame out]);
    try (rewrite Hp by auto);
    try (destruct answer as [[reversed_frame k'']|e]; cbn [cur_frame out]);
    rewrite <- ?app_assoc; cbn [app];
    eexists; (split; [reflexivity|]); (split; [reflexivity|]);
    cbn [security_calls filter is_security_call app];
    (repeat split; try reflexivity; auto);
    try (intros _; do 2 eexists; simpl; now eauto);
    try (intros (op & data & [H|[H|[]]]); discriminate H);
    try (intros (op & data & [H|[]]); discriminate H);
    try (intros [H|H]; discriminate H).
Qed.

Lemma run_out (K : KmcSdlsClient) (cli_args : Args) :
  let props := kmc_sdls_props cli_args in
  match setup K cli_args world0 with
  | (Ok (f_type, k, tc), w) =>
      exists h tail,
        out (snd (run K cli_args)) = (EvInit props :: frame_banner h :: tail)
        /\ (forall p, ~ In (EvInit p) tail)
        /\ (process_only cli_args = true -> apply_only cli_args = false ->
            security_calls tail = [EvProcess f_type tc])
  | (Raise e, w) =>
      out (snd (run K cli_args)) = out w
  end.
Proof.
  intros props. unfold run, main. unfold bind.
  pose proof (setup_cases K cli_args) as Hs. cbv zeta in Hs.
  destruct (setup K cli_args world0) as [[[[f_type k] tc]|e] w]; [|reflexivity].
  destruct Hs as (f & h & _ & _ & _ & _ & _ & Ho).
  destruct (orchestrate_out K k f_type cli_args tc w) as (tail & Ht & _ & Hi & Hp).
  exists h, tail. rewrite Ht, Ho. simpl. auto.
Qed.

(** C8: with apply_only false and process_only true no apply operation
    is called, and once the frame is serialised and decoded the run is
    the frame type's process operation applied to exactly the decoded
    bytes of [to_hex], on the client constructed from the configuration
    lines: the run ends as that call ends and reports what it
    returned. *)
Theorem process_only_gets_raw_frame (K : KmcSdlsClient) (cli_args : Args) :
  apply_only cli_args = false ->
  process_only cli_args = true ->
  (forall op data, ~ In (EvApply op data) (out (snd (run K cli_args))))
  /\ (forall f_type k tc w,
        setup K cli_args world0 = (Ok (f_type, k, tc), w) ->
        exists f h,
          cur_frame w = Some f /\ cls f = f_type
          /\ to_hex f = Ok h /\ Py.unhexlify h = Ok tc
          /\ connect K (kmc_sdls_props cli_args) = Ok k
          /\ security_calls (out (snd (run K cli_args))) = [EvProcess f_type tc]
          /\ run K cli_args
             = match match f_type with
                     | FTC => process_security_tc K
                     | FTM => process_security_tm K
                     | FAOS => process_security_aos K
                     end k tc
               with
               | Ok (reversed_frame, _) =>
                   (Ok tt,
                    mkWorld (Some f)
                      (out w ++ [EvProcess f_type tc;
                                 EvPrint ("SDLS " ++ ftype_name f_type
                                          ++ " Process Security Result:");
                                 EvReport f_type reversed_frame]))
               | Raise e =>
                   (Raise e, mkWorld (Some f) (out w ++ [EvProcess f_type tc]))
               end).
Proof.
  intros Ha Hp.
  pose proof (run_out K cli_args) as Hr. cbv zeta in Hr.
  pose proof (setup_cases K cli_args) as Hs. cbv zeta in Hs.
  destruct (setup K cli_args world0) as [[[[f_type k] tc]|e] w] eqn:Es.
  - destruct Hr as (h' & tail & Ho & _ & Hc). specialize (Hc Hp Ha).
    destruct Hs as (f & h & Hf & Hcls & Hh & Htc & Hk & _).
    assert (Hsec : security_calls (out (snd (run K cli_args))) = [EvProcess f_type tc])
      by (rewrite Ho; exact Hc).
    split.
    + intros op data Hin.
      assert (Hin' : In (EvApply op data) (security_calls (out (snd (run K cli_args)))))
        by (apply filter_In; split; [exact Hin|reflexivity]).
      rewrite Hsec in Hin'. destruct Hin' as [H|[]]. discriminate H.
    + intros f_type' k' tc' w' E. injection E as <- <- <- <-.
      exists f, h. repeat (split; [assumption|]).
      unfold run, main. unfold bind at 1. rewrite Es.
      unfold orchestrate. unfold_m. rewrite Ha, Hp.
      cbn [negb orb andb]. destruct w as [cf o]. cbn [cur_frame out] in *.
      subst cf.
      assert (Hfn : process_fn K f_type k tc
                    = match f_type with
                      | FTC => process_security_tc K
                      | FTM => process_security_tm K
                      | FAOS => process_security_aos K
                      end k tc) by (destruct f_type; reflexivity).
      rewrite Hfn.
      destruct (match f_type with
                | FTC => process_security_tc K
                | FTM => process_security_tm K
                | FAOS => process_security_aos K
                end k tc) as [[reversed_frame k'']|e];
        cbn [cur_frame out]; rewrite <- ?app_assoc; reflexivity.
  - split.
    + intros op data Hin. rewrite Hr in Hin.
      destruct Hs as [Hs|[Hs|[h Hs]]]; rewrite Hs in Hin; simpl in Hin;
        unfold frame_banner in Hin; intuition discriminate.
    + intros ? ? ? ? E. discriminate E.
Qed.

(** ** Exclusion of the overrides *)

Lemma int_of_empty (base : Z) : Py.int base "" = Raise ValueError.
Proof. reflexivity. Qed.

Lemma scid_type_ok (x x' : string) : scid_type x = Ok x' -> x' = x /\ x <> "".
Proof.
  intros H. split.
  - unfold scid_type in H. destruct (rbind _ _); [now injection H|discriminate H].
  - intros ->. cbv in H. discriminate H.
Qed.

Lemma vcid_type_ok (x x' : string) : vcid_type x = Ok x' -> x' = x /\ x <> "".
Proof.
  intros H. split.
  - unfold vcid_type in H. destruct (rbind _ _); [now injection H|discriminate H].
  - intros ->. cbv in H. discriminate H.
Qed.

Lemma frame_type_ok (x x' : string) : frame_type x = Ok x' -> x' = x /\ valid_type x.
Proof.
  unfold frame_type, valid_type. cbn [existsb].
  destruct (String.eqb (Py.upper x) "TC"); cbn [orb negb];
    [intros [= <-]; auto|].
  destruct (String.eqb (Py.upper x) "TM"); cbn [orb negb];
    [intros [= <-]; auto|].
  destruct (String.eqb (Py.upper x) "AOS"); cbn [orb negb];
    [intros [= <-]; auto 6|].
  discriminate.
Qed.

Lemma parse_option_resolved (fs : filesystem) (ns ns' : Namespace) (o : cli_option) :
  resolved ns -> parse_option fs ns o = Ok ns' -> resolved ns'.
Proof.
  intros (Hs & Hv & Ht) H. destruct ns as [f p po ao s v t]. simpl in *.
  destruct o; simpl in H.
  - injection H as <-. repeat split; auto.
  - destruct (file_type fs path); [|discriminate H]. simpl in H.
    injection H as <-. repeat split; auto.
  - injection H as <-. repeat split; auto.
  - injection H as <-. repeat split; auto.
  - destruct (scid_type value) as [x'|] eqn:E; [|discriminate H]. simpl in H.
    injection H as <-. apply scid_type_ok in E as [-> E].
    repeat split; simpl; auto. now intros ? [= <-].
  - destruct (vcid_type value) as [x'|] eqn:E; [|discriminate H]. simpl in H.
    injection H as <-. apply vcid_type_ok in E as [-> E].
    repeat split; simpl; auto. now intros ? [= <-].
  - destruct (frame_type value) as [x'|] eqn:E; [|discriminate H]. simpl in H.
    injection H as <-. apply frame_type_ok in E as [-> E].
    repeat split; simpl; auto. now intros ? [= <-].
Qed.

Lemma parse_options_resolved (fs : filesystem) (argv : list cli_option)
  (ns ns' : Namespace) :
  resolved ns -> parse_options fs ns argv = Ok ns' -> resolved ns'.
Proof.
  revert ns. induction argv as [|o argv IH]; intros ns Hr H; simpl in H.
  - now injection H as <-.
  - destruct (parse_option fs ns o) as [ns1|] eqn:E; [|discriminate H].
    simpl in H. eapply IH; [|exact H]. eapply parse_option_resolved; eauto.
Qed.

Lemma parse_args_resolved (fs : filesystem) (dp : string) (argv : list cli_option)
  (cli_args : Args) :
  parse_args fs dp argv = Ok cli_args ->
  (forall s, scid cli_args = Some s -> s <> "")
  /\ (forall v, vcid cli_args = Some v -> v <> "")
  /\ (forall t, type cli_args = Some t -> valid_type t).
Proof.
  unfold parse_args. intros H.
  destruct (parse_options fs empty_namespace argv) as [ns|] eqn:E; [|discriminate H].
  simpl in H.
  assert (Hr : resolved ns).
  { eapply parse_options_resolved; [|exact E]. repeat split; discriminate. }
  destruct (match ns_properties ns with Some _ => _ | None => _ end); [|discriminate H].
  simpl in H. injection H as <-. exact Hr.
Qed.

Lemma truthy_some (s : string) : s <> "" -> Py.truthy (Some s) = true.
Proof.
  intros H. simpl. destruct (String.eqb_spec s ""); [contradiction|reflexivity].
Qed.

Lemma select_frame_valid (cli_args : Args) (w : world) :
  (forall t, type cli_args = Some t -> valid_type t) ->
  exists t, select_frame cli_args w = (Ok t, mkWorld (Some (new_frame t)) (out w)).
Proof.
  intros Hv. unfold select_frame. unfold_m.
  destruct (type cli_args) as [t|]; [|exists FTC; reflexivity].
  destruct (Hv t eq_refl) as [H1|[[H1 H2]|[H1 [H2 H3]]]].
  - rewrite H1. exists FTC; reflexivity.
  - rewrite H1, H2. exists FTM; reflexivity.
  - rewrite H1, H2, H3. exists FAOS; reflexivity.
Qed.

(** C4, as worded: the run with an empty whole-frame override and SC-ID
    5 does not raise; it overrides the SC-ID and goes on to the security
    calls. *)
Lemma empty_frame_override_passes : ~ overrides_exclusive.
Proof.
  intros H.
  destruct (H echo_client empty_files "" [OptFrame ""; OptScid "5"]
              (mkArgs (Some "") "" false false (Some "5") None None) eq_refl)
    as [msg Hm].
  - discriminate.
  - left. discriminate.
  - vm_compute in Hm. discriminate Hm.
Qed.

(** C4: a resolved configuration with a whole-frame override that is not
    empty and an SC-ID or VC-ID override makes the run raise
    [ArgumentException] with the frame as it was constructed and nothing
    yet done to the outside: no client built, no security call. *)
Theorem nonempty_frame_override_excludes_ids (K : KmcSdlsClient) (fs : filesystem)
  (dp : string) (argv : list cli_option) (cli_args : Args) (h : string) :
  parse_args fs dp argv = Ok cli_args ->
  frame cli_args = Some h ->
  h <> "" ->
  scid cli_args <> None \/ vcid cli_args <> None ->
  exists msg t,
    run K cli_args = (Raise (ArgumentException msg), mkWorld (Some (new_frame t)) []).
Proof.
  intros Hp Hf Hh Hid.
  destruct (parse_args_resolved _ _ _ _ Hp) as (Hs & Hv & Ht).
  assert (Hc : Py.truthy (frame cli_args)
               && (Py.truthy (scid cli_args) || Py.truthy (vcid cli_args)) = true).
  { rewrite Hf, (truthy_some h Hh). simpl.
    destruct Hid as [Hid|Hid].
    - destruct (scid cli_args) as [s|]; [|contradiction].
      now rewrite (truthy_some s (Hs s eq_refl)).
    - destruct (vcid cli_args) as [v|]; [|contradiction].
      rewrite (truthy_some v (Hv v eq_refl)). apply orb_true_r. }
  destruct (select_frame_valid cli_args world0 Ht) as [t Et].
  destruct (apply_overrides_conflict t cli_args
              (mkWorld (Some (new_frame t)) (out world0)) Hc) as [msg Em].
  exists msg, t. unfold run, main, setup.
  unfold bind. rewrite Et, Em. reflexivity.
Qed.

(** ** Configuration lines handed to the client *)

(** C9, as worded: a line with trailing white space is not handed over
    as it is, and a line of white space is not handed over at all. *)
Lemma props_not_verbatim : ~ props_passed_verbatim.
Proof.
  intros H.
  specialize (H (mkArgs None ("key=value " ++ nl ++ "  " ++ nl)
                        false false None None None)).
  vm_compute in H. discriminate H.
Qed.

(** C9: the list handed to the client's constructor holds, in order, the
    lines of the properties text that do not start with [#] and are not
    all white space, each without its trailing white space; it is the
    first thing the run does to the outside, and is done once. *)
Theorem props_are_stripped_lines (K : KmcSdlsClient) (cli_args : Args) :
  kmc_sdls_props cli_args = stripped_props (properties cli_args)
  /\ (out (snd (run K cli_args)) = []
      \/ exists rest,
           out (snd (run K cli_args))
           = EvInit (stripped_props (properties cli_args)) :: rest
           /\ forall p, ~ In (EvInit p) rest).
Proof.
  assert (E : kmc_sdls_props cli_args = stripped_props (properties cli_args))
    by apply collected_is_stripped.
  split; [exact E|]. rewrite <- E.
  pose proof (run_out K cli_args) as Hr. cbv zeta in Hr.
  pose proof (setup_cases K cli_args) as Hs. cbv zeta in Hs.
  destruct (setup K cli_args world0) as [[[[f_type k] tc]|e] w].
  - destruct Hr as (h & tail & Ho & Hi & _). right.
    exists (frame_banner h :: tail). split; [exact Ho|].
    intros p [Hp|Hp]; [discriminate Hp|exact (Hi p Hp)].
  - rewrite Hr. destruct Hs as [Hs|[Hs|[h Hs]]]; rewrite Hs; [now left| |]; right.
    + exists []. split; [reflexivity|]. intros p [].
    + exists [frame_banner h]. split; [reflexivity|].
      intros p [Hp|[]]. discriminate Hp.
Qed.

(** ** Instances on the sample configuration *)

Lemma orchestrator_decision_witness :
  (process_only sample_args = false \/ apply_only sample_args = true ->
   apply_security_tm echo_client tt sample_bytes = Ok (sample_bytes, tt))
  /\ (apply_only sample_args = false \/ process_only sample_args = true ->
      process_security_tm echo_client tt sample_bytes
      = Ok (mkSecurityResult 0 [] [] sample_bytes [] 0, tt))
  /\ exists tail,
       orchestrate echo_client tt FTM sample_args sample_bytes world0
       = (Ok tt, mkWorld None ([] ++ tail))
       /\ tail
          = [EvApply FTM sample_bytes;
             EvPrint ("SDLS TC Apply Security Result:" ++ nl ++ hex sample_bytes ++ nl);
             EvProcess FTM sample_bytes;
             EvPrint "SDLS TM Process Security Result:";
             EvReport FTM (mkSecurityResult 0 [] [] sample_bytes [] 0)].
Proof.
  split; [intros _; reflexivity|]. split; [intros _; reflexivity|].
  destruct (orchestrator_decision echo_client tt tt FTM sample_args
              sample_bytes sample_bytes world0
              (Ok (mkSecurityResult 0 [] [] sample_bytes [] 0, tt))
              (fun _ => eq_refl) (fun _ => eq_refl))
    as (tail & Ho & Ht & _).
  exists tail. split; [exact Ho|exact Ht].
Defined.

Lemma process_only_gets_raw_frame_witness :
  apply_only sample_process_only = false
  /\ process_only sample_process_only = true
  /\ (forall op data,
        ~ In (EvApply op data) (out (snd (run echo_client sample_process_only))))
  /\ exists f h,
       to_hex f = Ok h
       /\ Py.unhexlify h
          = Ok [Byte.x20; Byte.x2c; Byte.x04; Byte.x08; Byte.x00; Byte.x00;
                Byte.x01; Byte.xbd; Byte.x37]
       /\ security_calls (out (snd (run echo_client sample_process_only)))
          = [EvProcess FTC
               [Byte.x20; Byte.x2c; Byte.x04; Byte.x08; Byte.x00; Byte.x00;
                Byte.x01; Byte.xbd; Byte.x37]]
       /\ fst (run echo_client sample_process_only) = Ok tt.
Proof.
  split; [reflexivity|]. split; [reflexivity|].
  destruct (process_only_gets_raw_frame echo_client sample_process_only
              eq_refl eq_refl) as [Hno Hraw].
  split; [exact Hno|].
  destruct (Hraw FTC tt
              [Byte.x20; Byte.x2c; Byte.x04; Byte.x08; Byte.x00; Byte.x00;
               Byte.x01; Byte.xbd; Byte.x37]
              (snd (setup echo_client sample_process_only world0)) eq_refl)
    as (f & h & _ & _ & Hh & Ht & _ & Hc & Hr).
  exists f, h. repeat (split; [assumption|]).
  rewrite Hr. reflexivity.
Defined.

Lemma nonempty_frame_override_excludes_ids_witness :
  parse_args empty_files "" sample_conflict
  = Ok (mkArgs (Some "202c0408000001bd37") "" false false (Some "44") None None)
  /\ "202c0408000001bd37" <> ""
  /\ exists msg t,
       run echo_client
         (mkArgs (Some "202c0408000001bd37") "" false false (Some "44") None None)
       = (Raise (ArgumentException msg), mkWorld (Some (new_frame t)) []).
Proof.
  split; [reflexivity|]. split; [discriminate|].
  apply (nonempty_frame_override_excludes_ids echo_client empty_files ""
           sample_conflict _ "202c0408000001bd37").
  - reflexivity.
  - reflexivity.
  - discriminate.
  - left. discriminate.
Defined.

(** * Further properties *)

(** ** Reading integers *)

Lemma chars_app (a b : string) : Py.chars (a ++ b) = (Py.chars a ++ Py.chars b)%list.
Proof.
  unfold Py.chars. induction a as [|c a IH]; simpl; [reflexivity|].
  now rewrite IH.
Qed.

Lemma digit_value_nonneg (c : ascii) : 0 <= Py.digit_value c.
Proof.
  unfold Py.digit_value.
  destruct (Z.leb_spec 48 (Py.code c)); simpl;
    [destruct (Z.leb_spec (Py.code c) 57); simpl; [lia|]|];
    (destruct (Z.leb_spec 97 (Py.code c)); simpl;
     [destruct (Z.leb_spec (Py.code c) 122); simpl; [lia|]|]);
    (destruct (Z.leb_spec 65 (Py.code c)); simpl;
     [destruct (Z.leb_spec (Py.code c) 90); simpl; lia|lia]).
Qed.

Lemma scan_digits_all (base : Z) (l rest : list ascii) (acc : Z) (seen : bool) :
  Forall (fun c => Py.is_underscore c = false /\ (Py.digit_value c <? base) = true) l ->
  match rest with
  | c :: _ => Py.is_underscore c = false /\ (Py.digit_value c <? base) = false
  | [] => True
  end ->
  seen = true \/ l <> [] ->
  exists v, Py.scan_digits base acc seen false (l ++ rest)%list = Some (v, rest)
            /\ (0 <= base -> 0 <= acc -> 0 <= v).
Proof.
  intros Hl Hrest. revert acc seen.
  induction Hl as [|c l [Hu Hd] Hl IH]; intros acc seen Hseen.
  - destruct Hseen as [->|H]; [|contradiction]. simpl.
    destruct rest as [|c rest]; simpl; [eauto|].
    destruct Hrest as [-> ->]. simpl. eauto.
  - simpl. rewrite Hu, Hd.
    destruct (IH (acc * base + Py.digit_value c) true) as (v & Hv & Hn);
      [now left|].
    exists v. split; [exact Hv|]. intros Hb Ha. apply Hn; [exact Hb|].
    pose proof (digit_value_nonneg c). nia.
Qed.

Lemma count_digits_all (base : Z) (l rest : list ascii) :
  Forall (fun c => Py.is_underscore c = false /\ (Py.digit_value c <? base) = true) l ->
  match rest with
  | c :: _ => Py.is_underscore c = false /\ (Py.digit_value c <? base) = false
  | [] => True
  end ->
  Py.count_digits base (l ++ rest)%list = List.length l.
Proof.
  intros Hl Hrest. induction Hl as [|c l [Hu Hd] Hl IH]; simpl.
  - destruct rest as [|c rest]; simpl; [reflexivity|].
    destruct Hrest as [-> ->]. reflexivity.
  - rewrite Hu, Hd, IH. reflexivity.
Qed.

Lemma decimal_digit_facts (c : ascii) :
  is_decimal_digit c = true ->
  Py.is_c_space c = false /\ Py.is_underscore c = false
  /\ (Py.digit_value c <? 10) = true
  /\ (Py.code c =? 43) = false /\ (Py.code c =? 45) = false.
Proof.
  unfold is_decimal_digit, Py.is_c_space, Py.is_underscore, Py.digit_value.
  intros H. apply andb_true_iff in H as [H1 H2].
  apply Z.leb_le in H1. apply Z.leb_le in H2.
  rewrite (proj2 (Z.leb_le _ _) H1), (proj2 (Z.leb_le _ _) H2). simpl.
  repeat split.
  - apply orb_false_iff. split; [apply andb_false_iff|].
    + right. apply Z.leb_gt. lia.
    + apply Z.eqb_neq. lia.
  - apply Z.eqb_neq. lia.
  - apply Z.ltb_lt. lia.
  - apply Z.eqb_neq. lia.
  - apply Z.eqb_neq. lia.
Qed.

Lemma binary_digit_facts (c : ascii) :
  is_binary_digit c = true ->
  Py.is_c_space c = false /\ Py.is_underscore c = false
  /\ (Py.digit_value c <? 2) = true
  /\ (Py.code c =? 43) = false /\ (Py.code c =? 45) = false
  /\ (Py.code c =? 98) = false /\ (Py.code c =? 66) = false.
Proof.
  unfold is_binary_digit, Py.is_c_space, Py.is_underscore, Py.digit_value.
  intros H. apply orb_true_iff in H as [H|H]; apply Z.eqb_eq in H; rewrite H;
    repeat split; reflexivity.
Qed.

Lemma decimal_run (l : list ascii) :
  forallb is_decimal_digit l = true ->
  Forall (fun c => Py.is_underscore c = false /\ (Py.digit_value c <? 10) = true) l.
Proof.
  intros Hall. apply Forall_forall. intros x Hx.
  pose proof (proj1 (forallb_forall _ _) Hall x Hx) as Hd.
  apply decimal_digit_facts in Hd. tauto.
Qed.

(** What [int] makes of the digits [c :: l], read after an optional
    sign. *)
Lemma int_of_digits (c : ascii) (l : list ascii) :
  forallb is_decimal_digit (c :: l) = true ->
  exists n,
    0 <= n
    /\ forall neg : bool,
       match Py.skip_prefix 10 (c :: l) with
       | c0 :: _ =>
           if Py.is_underscore c0 then Raise ValueError
           else match Py.scan_digits 10 0 false false (Py.skip_prefix 10 (c :: l)) with
                | Some (v, rest) =>
                    match Py.skip_space rest with
                    | [] =>
                        if (if 10 =? 2 then false
                            else Py.int_max_str_digits
                                 <? Z.of_nat (Py.count_digits 10
                                                (Py.skip_prefix 10 (c :: l))))
                        then Raise ValueError
                        else Ok (if neg then - v else v)
                    | _ :: _ => Raise ValueError
                    end
                | None => Raise ValueError
                end
       | [] => Raise ValueError
       end
       = if 4300 <? Z.of_nat (List.length (c :: l))
         then Raise ValueError
         else Ok (if neg then - n else n).
Proof.
  intros Hall. pose proof (decimal_run _ Hall) as HF.
  simpl in Hall. apply andb_true_iff in Hall as [Hc _].
  destruct (decimal_digit_facts c Hc) as (_ & Hu & _).
  assert (Hpre : Py.skip_prefix 10 (c :: l) = c :: l)
    by (destruct l; reflexivity).
  rewrite Hpre, Hu.
  destruct (scan_digits_all 10 (c :: l) [] 0 false HF I) as (v & Hv & Hn);
    [right; discriminate|].
  pose proof (count_digits_all 10 (c :: l) [] HF I) as Hcnt.
  rewrite app_nil_r in Hv, Hcnt. rewrite Hv, Hcnt.
  exists v. split; [apply Hn; lia|]. intros neg. reflexivity.
Qed.

Lemma int_decimal_text (s : string) :
  s <> "" -> all_decimal s = true ->
  exists n,
    0 <= n
    /\ Py.int 10 s = (if 4300 <? Z.of_nat (String.length s)
                      then Raise ValueError else Ok n)
    /\ Py.int 10 (String "-" s)
       = (if 4300 <? Z.of_nat (String.length s)
          then Raise ValueError else Ok (- n)).
Proof.
  intros Hne Hall. unfold all_decimal in Hall.
  assert (Hlen : String.length s = List.length (Py.chars s))
    by (rewrite <- (str_chars s) at 1; unfold Py.str; clear;
        induction (Py.chars s) as [|c l IH]; simpl; [reflexivity|now rewrite IH]).
  unfold Py.int.
  change (Py.chars (String "-" s)) with ("-"%char :: Py.chars s).
  rewrite Hlen.
  destruct (Py.chars s) as [|c l] eqn:E.
  { exfalso. apply Hne. rewrite <- (str_chars s), E. reflexivity. }
  pose proof Hall as Hall'. simpl in Hall'. apply andb_true_iff in Hall' as [Hc _].
  destruct (decimal_digit_facts c Hc) as (Hs & _ & _ & Hp & Hm).
  destruct (int_of_digits c l Hall) as (n & Hn & Hint).
  cbn [Py.skip_space]. rewrite Hs.
  change (Py.is_c_space "-") with false. cbv iota.
  cbn [Py.skip_sign]. rewrite Hp, Hm.
  change (Py.code "-" =? 43) with false. change (Py.code "-" =? 45) with true.
  cbv iota. rewrite (Hint false), (Hint true).
  exists n. auto.
Qed.

Lemma int_binary_header (pre rest : string) :
  all_binary pre = true ->
  (exists n, 0 <= n /\ Py.int 2 ("00" ++ pre) = Ok n)
  /\ Py.int 2 ("00" ++ pre ++ String "-" rest) = Raise ValueError.
Proof.
  intros Hall. unfold all_binary in Hall.
  assert (HF : Forall (fun c => Py.is_underscore c = false
                                /\ (Py.digit_value c <? 2) = true)
                      ("0"%char :: "0"%char :: Py.chars pre)).
  { repeat constructor. apply Forall_forall. intros x Hx.
    pose proof (proj1 (forallb_forall _ _) Hall x Hx) as Hd.
    apply binary_digit_facts in Hd. tauto. }
  split.
  - unfold Py.int.
    change (Py.chars ("00" ++ pre)) with ("0"%char :: "0"%char :: Py.chars pre).
    cbn [Py.skip_space]. change (Py.is_c_space "0") with false. cbv iota.
    cbn [Py.skip_sign]. change (Py.code "0" =? 43) with false.
    change (Py.code "0" =? 45) with false. cbv iota.
    change (Py.skip_prefix 2 ("0"%char :: "0"%char :: Py.chars pre))
      with ("0"%char :: "0"%char :: Py.chars pre).
    change (Py.is_underscore "0") with false. cbv iota.
    destruct (scan_digits_all 2 _ [] 0 false HF I) as (v & Hv & Hn);
      [right; discriminate|].
    rewrite app_nil_r in Hv. rewrite Hv. cbn [Py.skip_space].
    change (2 =? 2) with true. cbv iota.
    exists v. split; [apply Hn; lia|reflexivity].
  - unfold Py.int.
    assert (Hc : Py.chars ("00" ++ pre ++ String "-" rest)
                 = (("0"%char :: "0"%char :: Py.chars pre)
                      ++ "-"%char :: Py.chars rest)%list).
    { change ("00" ++ pre ++ String "-" rest)
        with (String "0" (String "0" (pre ++ String "-" rest))).
      change (Py.chars (String "0" (String "0" (pre ++ String "-" rest))))
        with ("0"%char :: "0"%char :: Py.chars (pre ++ String "-" rest)).
      now rewrite chars_app. }
    rewrite Hc.
    cbn [Py.skip_space app]. change (Py.is_c_space "0") with false. cbv iota.
    cbn [Py.skip_sign]. change (Py.code "0" =? 43) with false.
    change (Py.code "0" =? 45) with false. cbv iota.
    change (Py.skip_prefix 2 ("0"%char :: "0"%char :: (Py.chars pre ++ "-"%char :: Py.chars rest)%list))
      with ("0"%char :: "0"%char :: (Py.chars pre ++ "-"%char :: Py.chars rest)%list).
    change (Py.is_underscore "0") with false. cbv iota.
    destruct (scan_digits_all 2 _ ("-"%char :: Py.chars rest) 0 false HF)
      as (v & Hv & _); [split; reflexivity|right; discriminate|].
    cbn [app] in Hv. rewrite Hv. reflexivity.
Qed.

Lemma int_raises_value_error (base : Z) (s : string) (e : exn) :
  Py.int base s = Raise e -> e = ValueError.
Proof.
  unfold Py.int.
  destruct (Py.skip_sign _) as [neg l].
  destruct (Py.skip_prefix base l) as [|c l']; [now intros [= <-]|].
  destruct (Py.is_underscore c); [now intros [= <-]|].
  destruct (Py.scan_digits _ _ _ _ _) as [[n rest]|]; [|now intros [= <-]].
  destruct (Py.skip_space rest); [|now intros [= <-]].
  destruct (if base =? 2 then false else _); [now intros [= <-]|discriminate].
Qed.

(** The two validators accept a text exactly when [int] reads it, hand
    it back unchanged, and otherwise raise their own message: they agree
    on every text, whatever number it denotes. *)
Theorem validators_accept_what_int_reads (s : string) :
  ((exists n, Py.int 10 s = Ok n) /\ scid_type s = Ok s /\ vcid_type s = Ok s)
  \/ (Py.int 10 s = Raise ValueError
      /\ scid_type s
         = Raise (ArgumentTypeError "SC ID must be a number between 0 and 1023 inclusive")
      /\ vcid_type s
         = Raise (ArgumentTypeError "VC ID must be a number between 0 and 63 inclusive")).
Proof.
  destruct (Py.int 10 s) as [n|e] eqn:E.
  - left. split; [eauto|]. exact (scid_type_accepts s n E).
  - right. apply int_raises_value_error in E as E'. subst e.
    split; [reflexivity|]. unfold scid_type, vcid_type. rewrite E. split; reflexivity.
Qed.

(** A non-empty text of decimal digits, with or without a minus sign in
    front, passes both validators unchanged whatever number it denotes,
    as long as it has no more digits than the interpreter converts
    (4300); a longer one is refused with the validator's message. *)
Theorem validators_accept_any_digits (s : string) :
  s <> "" -> all_decimal s = true ->
  (Z.of_nat (String.length s) <= 4300 ->
   scid_type s = Ok s /\ vcid_type s = Ok s
   /\ scid_type (String "-" s) = Ok (String "-" s)
   /\ vcid_type (String "-" s) = Ok (String "-" s))
  /\ (4300 < Z.of_nat (String.length s) ->
      scid_type s
      = Raise (ArgumentTypeError "SC ID must be a number between 0 and 1023 inclusive")
      /\ vcid_type s
         = Raise (ArgumentTypeError "VC ID must be a number between 0 and 63 inclusive")
      /\ scid_type (String "-" s)
         = Raise (ArgumentTypeError "SC ID must be a number between 0 and 1023 inclusive")
      /\ vcid_type (String "-" s)
         = Raise (ArgumentTypeError "VC ID must be a number between 0 and 63 inclusive")).
Proof.
  intros Hne Hall.
  destruct (int_decimal_text s Hne Hall) as (n & _ & Hp & Hm).
  split; intros Hl.
  - destruct (Z.ltb_spec 4300 (Z.of_nat (String.length s))) as [H|_]; [lia|].
    destruct (scid_type_accepts s n Hp) as [H1 H2].
    destruct (scid_type_accepts _ (- n) Hm) as [H3 H4].
    auto.
  - destruct (Z.ltb_spec 4300 (Z.of_nat (String.length s))) as [_|H]; [|lia].
    unfold scid_type, vcid_type. rewrite Hp, Hm. repeat split; reflexivity.
Qed.

(** ** Formatting identifiers *)

Lemma str_app (a b : list ascii) : Py.str (a ++ b) = Py.str a ++ Py.str b.
Proof.
  unfold Py.str. induction a as [|c a IH]; simpl; [reflexivity|].
  now rewrite IH.
Qed.

Lemma str_length (l : list ascii) : String.length (Py.str l) = List.length l.
Proof.
  unfold Py.str. induction l as [|c l IH]; simpl; [reflexivity|].
  now rewrite IH.
Qed.

Lemma format_negative (w : nat) (n : Z) :
  n < 0 -> exists rest, Py.format true w Bin n = String "-" rest.
Proof.
  intros Hn. unfold Py.format.
  destruct (Z.ltb_spec n 0) as [_|H]; [|lia].
  eexists. reflexivity.
Qed.

Lemma format_nonnegative_binary (w : nat) (n : Z) :
  0 <= n -> all_binary (Py.format true w Bin n) = true.
Proof.
  intros Hn. unfold Py.format, all_binary.
  destruct (Z.ltb_spec n 0) as [H|_]; [lia|].
  rewrite chars_str. simpl. rewrite forallb_app. apply andb_true_iff. split.
  - apply forallb_forall. intros c Hc. apply repeat_spec in Hc. now subst c.
  - apply forallb_forall. intros c Hc. apply in_map_iff in Hc as [b [<- _]].
    now destruct b.
Qed.

Lemma bits_of_pos_length (p : positive) :
  List.length (Py.bits_of_pos p) = Pos.size_nat p.
Proof.
  induction p as [p IH|p IH|]; simpl; [| |reflexivity];
    rewrite length_app, IH; simpl; lia.
Qed.

Lemma size_nat_bound (p : positive) (w : nat) :
  (Pos.size_nat p <= w)%nat <-> Zpos p < 2 ^ Z.of_nat w.
Proof.
  revert w. induction p as [p IH|p IH|]; intros w; simpl.
  - destruct w as [|w]; [simpl; lia|].
    rewrite Nat2Z.inj_succ, Z.pow_succ_r by lia.
    specialize (IH w). lia.
  - destruct w as [|w]; [simpl; lia|].
    rewrite Nat2Z.inj_succ, Z.pow_succ_r by lia.
    specialize (IH w). lia.
  - destruct w as [|w]; [simpl; lia|].
    rewrite Nat2Z.inj_succ, Z.pow_succ_r by lia.
    assert (0 < 2 ^ Z.of_nat w) by (apply Z.pow_pos_nonneg; lia). lia.
Qed.

Lemma format_width (w : nat) (n : Z) :
  0 <= n -> (1 <= w)%nat ->
  (w <= String.length (Py.format true w Bin n))%nat
  /\ (String.length (Py.format true w Bin n) = w <-> n < 2 ^ Z.of_nat w).
Proof.
  intros Hn Hw. unfold Py.format.
  destruct (Z.ltb_spec n 0) as [H|_]; [lia|].
  rewrite str_length. simpl. rewrite length_app, repeat_length, length_map.
  destruct n as [|p|p]; [| |lia]; simpl.
  - assert (0 < 2 ^ Z.of_nat w) by (apply Z.pow_pos_nonneg; lia). lia.
  - rewrite bits_of_pos_length. pose proof (size_nat_bound p w). lia.
Qed.

(** ** The TC header, field by field *)

Lemma string_app_assoc (a b c : string) : (a ++ b) ++ c = a ++ (b ++ c).
Proof. induction a as [|x a IH]; simpl; [reflexivity|now rewrite IH]. Qed.

Lemma all_binary_app (a b : string) :
  all_binary (a ++ b) = all_binary a && all_binary b.
Proof. unfold all_binary. now rewrite chars_app, forallb_app. Qed.

Lemma nibbles_hex (n : nat) (l : list bool) :
  (List.length l <= n)%nat -> forallb is_hex_digit (Py.nibbles l) = true.
Proof.
  revert l. induction n as [|n IH]; intros l Hn.
  - destruct l; [reflexivity|simpl in Hn; lia].
  - destruct l as [|b3 [|b2 [|b1 [|b0 l']]]]; try reflexivity.
    cbn [Py.nibbles forallb]. rewrite IH by (simpl in Hn; lia).
    destruct b3, b2, b1, b0; reflexivity.
Qed.

Lemma nibbles_nonempty (l : list bool) :
  l <> [] -> Py.nibbles (Py.pad4 l) <> [].
Proof.
  intros Hl. unfold Py.pad4.
  destruct l as [|a [|b [|c [|d l']]]].
  - contradiction.
  - simpl. discriminate.
  - simpl. discriminate.
  - simpl. discriminate.
  - cbn [List.length].
    set (k := ((4 - S (S (S (S (List.length l')))) mod 4) mod 4)%nat).
    destruct k as [|[|[|[|k]]]]; simpl; discriminate.
Qed.

Lemma format_hex_digits (n : Z) :
  0 <= n ->
  all_hex (Py.format false 0 Hex n) = true /\ Py.format false 0 Hex n <> "".
Proof.
  intros Hn. unfold Py.format, all_hex.
  destruct (Z.ltb_spec n 0) as [H|_]; [lia|].
  cbn [List.length Nat.sub repeat app Py.digits_of_abs].
  split.
  - rewrite chars_str. apply (nibbles_hex _ _ (le_n _)).
  - intros E. apply (f_equal Py.chars) in E. rewrite chars_str in E.
    revert E. apply nibbles_nonempty.
    destruct n as [|p|p]; [discriminate| |lia].
    simpl. destruct p; simpl; try discriminate;
      destruct (Py.bits_of_pos p); discriminate.
Qed.

Lemma all_hex_app (a b : string) : all_hex (a ++ b) = all_hex a && all_hex b.
Proof. unfold all_hex. now rewrite chars_app, forallb_app. Qed.

Lemma tc_assembled (f : Frame) :
  cls f = FTC -> hex_value f = None -> override f = true ->
  all_binary (sc_id f) = true -> all_binary (vc_id f) = true ->
  exists h, to_hex f = Ok (h ++ frame_body_hex f)
            /\ all_hex h = true /\ h <> "".
Proof.
  intros Hc Hh Ho Hs Hv. unfold to_hex, TC.to_hex. rewrite Hc, Hh, Ho. simpl negb.
  cbv iota.
  set (pre := "1000" ++ sc_id f ++ vc_id f ++ "000000100000000000").
  assert (Hpre : all_binary pre = true).
  { unfold pre. rewrite !all_binary_app, Hs, Hv. reflexivity. }
  destruct (int_binary_header pre "" Hpre) as [(n & Hpos & Hn) _].
  change (TC.version ++ TC.bypass_flag ++ TC.ctrl_cmd_flag ++ TC.spare ++ sc_id f
            ++ vc_id f ++ TC.frame_length ++ TC.frame_sequence_number)
    with ("00" ++ pre).
  rewrite Hn. cbn [rbind].
  exists (Py.format false 0 Hex n). split; [reflexivity|].
  apply format_hex_digits. exact Hpos.
Qed.

Lemma tc_minus_in_scid (f : Frame) (rest : string) :
  cls f = FTC -> hex_value f = None -> override f = true ->
  sc_id f = String "-" rest ->
  to_hex f = Raise ValueError.
Proof.
  intros Hc Hh Ho Hs. unfold to_hex, TC.to_hex. rewrite Hc, Hh, Ho, Hs. simpl negb.
  cbv iota.
  destruct (int_binary_header "1000"
              (rest ++ vc_id f ++ TC.frame_length ++ TC.frame_sequence_number)
              eq_refl) as [_ Hn].
  change (TC.version ++ TC.bypass_flag ++ TC.ctrl_cmd_flag ++ TC.spare
            ++ String "-" rest ++ vc_id f ++ TC.frame_length
            ++ TC.frame_sequence_number)
    with ("00" ++ "1000" ++ String "-"
            (rest ++ vc_id f ++ TC.frame_length ++ TC.frame_sequence_number)).
  rewrite Hn. reflexivity.
Qed.

Lemma tc_minus_in_vcid (f : Frame) (rest : string) :
  cls f = FTC -> hex_value f = None -> override f = true ->
  all_binary (sc_id f) = true ->
  vc_id f = String "-" rest ->
  to_hex f = Raise ValueError.
Proof.
  intros Hc Hh Ho Hs Hv. unfold to_hex, TC.to_hex. rewrite Hc, Hh, Ho, Hv. simpl negb.
  cbv iota.
  assert (Hpre : all_binary ("1000" ++ sc_id f) = true)
    by (rewrite all_binary_app, Hs; reflexivity).
  destruct (int_binary_header ("1000" ++ sc_id f)
              (rest ++ TC.frame_length ++ TC.frame_sequence_number) Hpre)
    as [_ Hn].
  replace (TC.version ++ TC.bypass_flag ++ TC.ctrl_cmd_flag ++ TC.spare
            ++ sc_id f ++ String "-" rest ++ TC.frame_length
            ++ TC.frame_sequence_number)
    with ("00" ++ ("1000" ++ sc_id f) ++ String "-"
            (rest ++ TC.frame_length ++ TC.frame_sequence_number)).
  - rewrite Hn. reflexivity.
  - rewrite string_app_assoc. reflexivity.
Qed.

Lemma tc_with_shape (s v : option Z) :
  cls (tc_with s v) = FTC /\ hex_value (tc_with s v) = None
  /\ frame_body_hex (tc_with s v) = frame_body_hex TC.init
  /\ override (tc_with s v)
     = match s, v with None, None => false | _, _ => true end
  /\ sc_id (tc_with s v)
     = match s with Some n => Py.format true 10 Bin n | None => "0000101100" end
  /\ vc_id (tc_with s v)
     = match v with Some n => Py.format true 6 Bin n | None => "000001" end.
Proof. destruct s, v; repeat split; reflexivity. Qed.

(** On a TC frame every SC-ID and VC-ID that is not negative, of any
    size, gives a string of hexadecimal digits: a header that is not
    empty, followed by the default body. *)
Theorem tc_nonnegative_ids_serialise (s v : option Z) :
  (forall n, s = Some n -> 0 <= n) ->
  (forall n, v = Some n -> 0 <= n) ->
  exists h,
    to_hex (tc_with s v) = Ok (h ++ "0001bd37")
    /\ h <> ""
    /\ all_hex (h ++ "0001bd37") = true.
Proof.
  intros Hs Hv.
  destruct (tc_with_shape s v) as (Hc & Hh & Hb & Ho & Hsc & Hvc).
  assert (G : exists h, to_hex (tc_with s v) = Ok (h ++ "0001bd37")
                        /\ all_hex h = true /\ h <> "").
  { destruct s as [n|], v as [m|];
      try (exists "202c040800";
           split; [reflexivity|split; [reflexivity|discriminate]]);
      change "0001bd37" with (frame_body_hex TC.init); rewrite <- Hb;
      apply tc_assembled; auto; rewrite ?Hsc, ?Hvc;
      try reflexivity; apply format_nonnegative_binary; auto. }
  destruct G as (h & E & Hx & Hne). exists h.
  split; [exact E|]. split; [exact Hne|].
  rewrite all_hex_app, Hx. reflexivity.
Qed.

(** On a TC frame a negative SC-ID, or a negative VC-ID beside an SC-ID
    that is not negative, makes [to_hex] raise [ValueError]: the minus
    sign of the formatted number lands inside the binary header. *)
Theorem tc_negative_id_raises (s v : option Z) :
  (exists n, s = Some n /\ n < 0)
  \/ ((forall n, s = Some n -> 0 <= n) /\ exists m, v = Some m /\ m < 0) ->
  to_hex (tc_with s v) = Raise ValueError.
Proof.
  intros H.
  destruct (tc_with_shape s v) as (Hc & Hh & Hb & Ho & Hsc & Hvc).
  destruct H as [(n & -> & Hn)|(Hs & m & -> & Hm)].
  - destruct (format_negative 10 n Hn) as [rest Hr].
    apply (tc_minus_in_scid _ rest); [exact Hc|exact Hh| |].
    + rewrite Ho. now destruct v.
    + now rewrite Hsc.
  - destruct (format_negative 6 m Hm) as [rest Hr].
    apply (tc_minus_in_vcid _ rest); [exact Hc|exact Hh| | |].
    + rewrite Ho. now destruct s.
    + rewrite Hsc. destruct s as [n|]; [|reflexivity].
      apply format_nonnegative_binary. auto.
    + now rewrite Hvc.
Qed.

Lemma unhexlify_chars_length (n : nat) (l : list ascii) (data : bytes) :
  (List.length l <= n)%nat -> Py.unhexlify_chars l = Ok data ->
  List.length l = (2 * List.length data)%nat.
Proof.
  revert l data. induction n as [|n IH]; intros l data Hn.
  - destruct l; [intros [= <-]; reflexivity|simpl in Hn; lia].
  - destruct l as [|hi [|lo l']]; simpl.
    + intros [= <-]. reflexivity.
    + discriminate.
    + destruct (Py.hex_digit hi); [|discriminate].
      destruct (Py.hex_digit lo); [|discriminate].
      destruct (Py.unhexlify_chars l') as [bs|e'] eqn:E; [|discriminate].
      intros [= <-]. simpl in Hn. rewrite (IH l' bs); [simpl; lia|lia|exact E].
Qed.

Lemma hex_text_decodes (n : nat) (l bs : list ascii) :
  (List.length l <= n)%nat ->
  bits_of_hex_chars l = Some bs ->
  Nat.even (List.length l) = true ->
  exists data, Py.unhexlify_chars l = Ok data.
Proof.
  revert l bs. induction n as [|n IH]; intros l bs Hn Hb He.
  - destruct l; [exists []; reflexivity|simpl in Hn; lia].
  - destruct l as [|hi [|lo l']]; [exists []; reflexivity|discriminate He|].
    cbn [bits_of_hex_chars] in Hb. unfold hex_digit_bits in Hb.
    cbn [Py.unhexlify_chars].
    destruct (Py.hex_digit hi) as [h|]; [|discriminate Hb].
    destruct (Py.hex_digit lo) as [d|]; [|discriminate Hb].
    destruct (bits_of_hex_chars l') as [bs'|] eqn:E; [|discriminate Hb].
    destruct (IH l' bs') as [data Hd]; [simpl in Hn; lia|exact E|exact He|].
    rewrite Hd. eauto.
Qed.

(** On a TC frame every SC-ID in 0..1023 with every VC-ID in 0..63 gives
    eighteen hexadecimal digits whose header bits read back both
    identifiers at their offsets, whose last eight digits are the
    default body, and which decode to nine bytes. *)
Theorem tc_in_range_round_trip (s v : Z) :
  0 <= s <= 1023 -> 0 <= v <= 63 ->
  exists h bits data,
    to_hex (tc_with (Some s) (Some v)) = Ok h
    /\ String.length h = 18%nat
    /\ bits_of_hex h = Some bits
    /\ field 6 10 bits = Py.format true 10 Bin s
    /\ field 16 6 bits = Py.format true 6 Bin v
    /\ String.substring 10 8 h = "0001bd37"
    /\ Py.unhexlify h = Ok data
    /\ List.length data = 9%nat.
Proof.
  intros Hs Hv.
  destruct (tc_override_reads_back s v Hs Hv) as (_ & _ & Hr).
  unfold tc_reads_back in Hr.
  destruct (to_hex (tc_with (Some s) (Some v))) as [h|]; [|discriminate Hr].
  destruct (bits_of_hex h) as [bits|] eqn:Eb; [|discriminate Hr].
  repeat (apply andb_true_iff in Hr as [Hr ?]).
  repeat match goal with
         | H : String.eqb _ _ = true |- _ => apply String.eqb_eq in H
         | H : Nat.eqb _ _ = true |- _ => apply Nat.eqb_eq in H
         end.
  assert (Hlen : String.length h = 18%nat) by assumption.
  assert (Hl : List.length (Py.chars h) = 18%nat)
    by (rewrite <- str_length, str_chars; exact Hlen).
  unfold bits_of_hex in Eb.
  destruct (bits_of_hex_chars (Py.chars h)) as [bs|] eqn:Ec; [|discriminate Eb].
  destruct (hex_text_decodes 18 (Py.chars h) bs) as [data Hd];
    [lia|exact Ec|now rewrite Hl|].
  exists h, bits, data.
  assert (Hu : Py.unhexlify h = Ok data) by exact Hd.
  assert (H9 : List.length data = 9%nat).
  { pose proof (unhexlify_chars_length 18 (Py.chars h) data) as H'.
    rewrite Hl in H'. specialize (H' (le_n _) Hd). lia. }
  unfold bits_of_hex. rewrite Ec.
  repeat split; auto.
Qed.

Lemma validator_reads_int (x x' : string) :
  scid_type x = Ok x' \/ vcid_type x = Ok x' ->
  x' = x /\ x <> "" /\ exists n, Py.int 10 x = Ok n.
Proof.
  intros H.
  assert (Hi : exists n, Py.int 10 x = Ok n).
  { destruct (Py.int 10 x) as [n|e] eqn:E; [eauto|].
    unfold scid_type, vcid_type in H. rewrite E in H. simpl in H.
    destruct H as [H|H]; discriminate H. }
  destruct H as [H|H].
  - apply scid_type_ok in H. tauto.
  - apply vcid_type_ok in H. tauto.
Qed.

Lemma parse_options_well_resolved (fs : filesystem) (argv : list cli_option)
  (ns ns' : Namespace) :
  (forall s, ns_scid ns = Some s -> exists n, Py.int 10 s = Ok n) ->
  (forall v, ns_vcid ns = Some v -> exists n, Py.int 10 v = Ok n) ->
  parse_options fs ns argv = Ok ns' ->
  (forall s, ns_scid ns' = Some s -> exists n, Py.int 10 s = Ok n)
  /\ (forall v, ns_vcid ns' = Some v -> exists n, Py.int 10 v = Ok n).
Proof.
  revert ns. induction argv as [|o argv IH]; intros ns Hs Hv H; simpl in H.
  - injection H as <-. auto.
  - destruct (parse_option fs ns o) as [ns1|] eqn:E; [|discriminate H].
    simpl in H. apply (IH ns1); [| |exact H];
      destruct ns as [f p po ao s v t]; destruct o; simpl in E;
      try (injection E as <-; simpl in *; now auto);
      try (destruct (file_type fs path); [|discriminate E]; simpl in E;
           injection E as <-; simpl in *; now auto).
    all: try (destruct (scid_type value) as [x'|] eqn:Ex; [|discriminate E];
              simpl in E; injection E as <-; simpl in *;
              try assumption;
              intros ? [= <-];
              destruct (validator_reads_int value x' (or_introl Ex)) as (-> & _ & Hi);
              exact Hi).
    all: try (destruct (vcid_type value) as [x'|] eqn:Ex; [|discriminate E];
              simpl in E; injection E as <-; simpl in *;
              try assumption;
              intros ? [= <-];
              destruct (validator_reads_int value x' (or_intror Ex)) as (-> & _ & Hi);
              exact Hi).
    all: destruct (frame_type value) as [x'|] eqn:Ex; [|discriminate E];
         simpl in E; injection E as <-; simpl in *; assumption.
Qed.

Lemma parse_args_well_resolved (fs : filesystem) (dp : string)
  (argv : list cli_option) (cli_args : Args) :
  parse_args fs dp argv = Ok cli_args -> well_resolved cli_args.
Proof.
  intros H.
  destruct (parse_args_resolved fs dp argv cli_args H) as (Hs & Hv & Ht).
  unfold parse_args in H.
  destruct (parse_options fs empty_namespace argv) as [ns|] eqn:E; [|discriminate H].
  simpl in H.
  destruct (parse_options_well_resolved fs argv empty_namespace ns) as [Is Iv];
    [discriminate|discriminate|exact E|].
  destruct (match ns_properties ns with Some _ => _ | None => _ end); [|discriminate H].
  simpl in H. injection H as <-. simpl in *.
  repeat split; auto.
Qed.

Lemma apply_overrides_ok (f_type : ftype) (cli_args : Args) (f : Frame)
  (o : list event) :
  well_resolved cli_args ->
  conflicting cli_args = false ->
  exists f',
    apply_overrides f_type cli_args (mkWorld (Some f) o)
    = (Ok tt, mkWorld (Some f') o)
    /\ cls f' = cls f
    /\ frame_body_hex f' = frame_body_hex f
    /\ frame_header_hex f' = frame_header_hex f
    /\ default_frame_hex f' = default_frame_hex f
    /\ hex_value f' = (if Py.truthy (frame cli_args) then frame cli_args
                       else hex_value f)
    /\ override f'
       = (override f || Py.truthy (scid cli_args) || Py.truthy (vcid cli_args)
          || Py.truthy (frame cli_args))
    /\ (forall s n, scid cli_args = Some s -> Py.int 10 s = Ok n ->
        sc_id f' = scid_format f_type n)
    /\ (scid cli_args = None -> sc_id f' = sc_id f)
    /\ (forall v n, vcid cli_args = Some v -> Py.int 10 v = Ok n ->
        vc_id f' = vcid_format f_type n)
    /\ (vcid cli_args = None -> vc_id f' = vc_id f).
Proof.
  intros (Hs & Hv & _) Hc. unfold conflicting in Hc.
  unfold apply_overrides. unfold_m. rewrite Hc.
  destruct (scid cli_args) as [s|], (vcid cli_args) as [v|],
           (frame cli_args) as [h|];
    try (destruct (Hs s eq_refl) as (Hs1 & ns & Hs2);
         rewrite (truthy_some s Hs1) in *; rewrite Hs2);
    try (destruct (Hv v eq_refl) as (Hv1 & nv & Hv2);
         rewrite (truthy_some v Hv1) in *; rewrite Hv2);
    cbn [cur_frame out];
    try (destruct (Py.truthy (Some h)) eqn:Eh; try discriminate Hc);
    cbn [cur_frame out];
    eexists; (split; [reflexivity|]);
    cbn [cls frame_body_hex frame_header_hex default_frame_hex hex_value override
         sc_id vc_id override_scid override_vcid override_hex];
    rewrite ?orb_true_r, ?orb_false_r;
    repeat split; try reflexivity; try discriminate;
    try (intros ? ? [= <-] E; rewrite E in *;
         match goal with H : Ok _ = Ok _ |- _ => injection H as -> end;
         now destruct f_type).
Qed.

Lemma select_frame_named (cli_args : Args) (w : world) :
  (forall t, type cli_args = Some t -> valid_type t) ->
  exists t,
    select_frame cli_args w = (Ok t, mkWorld (Some (new_frame t)) (out w))
    /\ ftype_name t = match type cli_args with
                      | Some token => Py.upper token
                      | None => "TC"
                      end.
Proof.
  intros Hv. unfold select_frame. unfold_m.
  destruct (type cli_args) as [t|]; [|exists FTC; split; reflexivity].
  destruct (Hv t eq_refl) as [H1|[[H1 H2]|[H1 [H2 H3]]]].
  - rewrite H1. exists FTC. split; [reflexivity|].
    apply String.eqb_eq in H1. now rewrite H1.
  - rewrite H1, H2. exists FTM. split; [reflexivity|].
    apply String.eqb_eq in H2. now rewrite H2.
  - rewrite H1, H2, H3. exists FAOS. split; [reflexivity|].
    apply String.eqb_eq in H3. now rewrite H3.
Qed.

Lemma setup_resolved (K : KmcSdlsClient) (cli_args : Args) :
  well_resolved cli_args ->
  exists t,
    ftype_name t = match type cli_args with
                   | Some token => Py.upper token
                   | None => "TC"
                   end
    /\ (conflicting cli_args = true ->
        exists msg,
          setup K cli_args world0
          = (Raise (ArgumentException msg), mkWorld (Some (new_frame t)) []))
    /\ (conflicting cli_args = false ->
        exists f',
          apply_overrides t cli_args (mkWorld (Some (new_frame t)) [])
          = (Ok tt, mkWorld (Some f') [])
          /\ setup K cli_args world0
             = bind (prepare K cli_args)
                    (fun x => let '(k, tc) := x in ret (t, k, tc))
                    (mkWorld (Some f') [])).
Proof.
  intros Hw. destruct Hw as (Hs & Hv & Ht).
  destruct (select_frame_named cli_args world0 Ht) as (t & Et & Hn).
  exists t. split; [exact Hn|]. split.
  - intros Hc.
    destruct (apply_overrides_conflict t cli_args
                (mkWorld (Some (new_frame t)) (out world0)) Hc) as [msg Em].
    exists msg. unfold setup. unfold bind. rewrite Et, Em. reflexivity.
  - intros Hc.
    destruct (apply_overrides_ok t cli_args (new_frame t) []
                (conj Hs (conj Hv Ht)) Hc) as (f' & Ef & _).
    exists f'. split; [exact Ef|].
    unfold setup. unfold bind at 1. rewrite Et.
    unfold bind at 1. simpl out. rewrite Ef. reflexivity.
Qed.

Lemma run_frame (K : KmcSdlsClient) (cli_args : Args) :
  cur_frame (snd (run K cli_args)) = cur_frame (snd (setup K cli_args world0)).
Proof.
  unfold run, main. unfold bind.
  destruct (setup K cli_args world0) as [[[[f_type k] tc]|e] w]; [|reflexivity].
  destruct (orchestrate_out K k f_type cli_args tc w) as (tail & _ & Hf & _).
  exact Hf.
Qed.

Lemma prepare_frame (K : KmcSdlsClient) (cli_args : Args) (w : world) :
  cur_frame (snd (prepare K cli_args w)) = cur_frame w.
Proof.
  pose proof (prepare_cases K cli_args w) as H. cbv zeta in H.
  destruct (prepare K cli_args w) as [[[k tc]|e] w'].
  - destruct H as (f & h & _ & _ & _ & _ & ->). reflexivity.
  - tauto.
Qed.

(** The frame a resolved run works on is of the class that the type
    token names without regard to case, TC when no token is given; the
    rejection of line 222 is never reached. *)
Theorem frame_class_follows_token (K : KmcSdlsClient) (fs : filesystem)
  (dp : string) (argv : list cli_option) (cli_args : Args) :
  parse_args fs dp argv = Ok cli_args ->
  exists f,
    cur_frame (snd (run K cli_args)) = Some f
    /\ ftype_name (cls f) = match type cli_args with
                            | Some token => Py.upper token
                            | None => "TC"
                            end.
Proof.
  intros Hp. apply parse_args_well_resolved in Hp as Hw.
  destruct (setup_resolved K cli_args Hw) as (t & Hn & Hc & Hnc).
  rewrite run_frame.
  destruct (conflicting cli_args) eqn:Ec.
  - destruct (Hc eq_refl) as [msg ->]. exists (new_frame t).
    split; [reflexivity|]. rewrite <- Hn. now destruct t.
  - destruct (Hnc eq_refl) as (f' & Ef & ->).
    destruct (apply_overrides_ok t cli_args (new_frame t) [] Hw Ec)
      as (f'' & Ef' & Hcls & _).
    rewrite Ef in Ef'. injection Ef' as <-.
    exists f'. split.
    + unfold bind.
      pose proof (prepare_frame K cli_args (mkWorld (Some f') [])) as Hpf.
      destruct (prepare K cli_args _) as [[[k tc]|e] w']; exact Hpf.
    + rewrite Hcls, <- Hn. now destruct t.
Qed.

(** A resolved run ends before anything is done to the outside exactly
    when a whole-frame override comes with an SC-ID or VC-ID override,
    and then it ends with [ArgumentException]; every other resolved run
    gets as far as constructing the client. *)
Theorem early_failure_iff_conflict (K : KmcSdlsClient) (fs : filesystem)
  (dp : string) (argv : list cli_option) (cli_args : Args) :
  parse_args fs dp argv = Ok cli_args ->
  (out (snd (run K cli_args)) = [] <-> conflicting cli_args = true)
  /\ (conflicting cli_args = true ->
      exists msg, fst (run K cli_args) = Raise (ArgumentException msg))
  /\ (conflicting cli_args = false ->
      exists rest,
        out (snd (run K cli_args)) = EvInit (kmc_sdls_props cli_args) :: rest).
Proof.
  intros Hp. apply parse_args_well_resolved in Hp as Hw.
  destruct (setup_resolved K cli_args Hw) as (t & Hn & Hc & Hnc).
  assert (Hfalse : conflicting cli_args = false ->
                   exists rest,
                     out (snd (run K cli_args))
                     = EvInit (kmc_sdls_props cli_args) :: rest).
  { intros Ec. destruct (Hnc Ec) as (f' & _ & Es).
    pose proof (run_out K cli_args) as Hr. cbv zeta in Hr.
    rewrite Es in Hr. unfold bind in Hr.
    pose proof (prepare_cases K cli_args (mkWorld (Some f') [])) as Hq.
    cbv zeta in Hq.
    destruct (prepare K cli_args (mkWorld (Some f') [])) as [[[k tc]|e] w'].
    - unfold ret in Hr. destruct Hr as (h & tail & -> & _). eauto.
    - rewrite Hr. destruct Hq as [_ [->|[h ->]]]; simpl; eauto. }
  assert (Htrue : conflicting cli_args = true ->
                  run K cli_args
                  = (fst (run K cli_args), mkWorld (Some (new_frame t)) [])
                  /\ exists msg, fst (run K cli_args) = Raise (ArgumentException msg)).
  { intros Ec. destruct (Hc Ec) as [msg Es].
    unfold run, main. unfold bind. rewrite Es. simpl. eauto. }
  split; [split|split].
  - intros Ho. destruct (conflicting cli_args); [reflexivity|].
    destruct (Hfalse eq_refl) as [rest Hr]. rewrite Hr in Ho. discriminate Ho.
  - intros Ec. destruct (Htrue Ec) as [-> _]. reflexivity.
  - intros Ec. exact (proj2 (Htrue Ec)).
  - exact Hfalse.
Qed.

Lemma prepare_eval (K : KmcSdlsClient) (cli_args : Args) (f : Frame)
  (o : list event) (k : client K) :
  connect K (kmc_sdls_props cli_args) = Ok k ->
  prepare K cli_args (mkWorld (Some f) o)
  = match to_hex f with
    | Ok h =>
        let w := mkWorld (Some f)
                   (o ++ [EvInit (kmc_sdls_props cli_args); frame_banner h])%list in
        match Py.unhexlify h with
        | Ok tc => (Ok (k, tc), w)
        | Raise e => (Raise e, w)
        end
    | Raise e =>
        (Raise e, mkWorld (Some f) (o ++ [EvInit (kmc_sdls_props cli_args)])%list)
    end.
Proof.
  intros Hk. unfold prepare, frame_banner. unfold_m. cbn [cur_frame out].
  rewrite Hk.
  destruct (to_hex f) as [h|e] eqn:Eh; [|reflexivity].
  cbn [cur_frame out]. rewrite <- app_assoc. cbn [app].
  destruct (Py.unhexlify h); reflexivity.
Qed.

Lemma stub_to_hex_raises (f : Frame) :
  cls f <> FTC -> hex_value f = None -> override f = true ->
  to_hex f = Raise ValueError.
Proof.
  intros Hc Hh Ho. unfold to_hex, TM.to_hex, AOS.to_hex.
  destruct (cls f); [contradiction| |]; rewrite Hh, Ho; reflexivity.
Qed.

Lemma unhexlify_chars_raises (n : nat) (l : list ascii) (e : exn) :
  (List.length l <= n)%nat -> Py.unhexlify_chars l = Raise e -> e = BinasciiError.
Proof.
  revert l. induction n as [|n IH]; intros l Hn.
  - destruct l; [discriminate|simpl in Hn; lia].
  - destruct l as [|hi [|lo l']]; simpl.
    + discriminate.
    + now intros [= <-].
    + destruct (Py.hex_digit hi); [|now intros [= <-]].
      destruct (Py.hex_digit lo); [|now intros [= <-]].
      destruct (Py.unhexlify_chars l') as [bs|e'] eqn:E; [discriminate|].
      intros [= <-]. apply (IH l'); [simpl in Hn; lia|exact E].
Qed.

Lemma unhexlify_raises (h : string) (e : exn) :
  Py.unhexlify h = Raise e -> e = BinasciiError.
Proof. apply (unhexlify_chars_raises (List.length (Py.chars h))). lia. Qed.

(** A resolved run with TM or AOS as type and an SC-ID or VC-ID override
    constructs the client and then stops with [ValueError] when the
    frame is serialised: nothing is printed and no security call is
    made. *)
Theorem tm_aos_id_override_stops_run (K : KmcSdlsClient) (fs : filesystem)
  (dp : string) (argv : list cli_option) (cli_args : Args) (token : string)
  (k : client K) :
  parse_args fs dp argv = Ok cli_args ->
  type cli_args = Some token ->
  Py.upper token = "TM" \/ Py.upper token = "AOS" ->
  Py.truthy (frame cli_args) = false ->
  scid cli_args <> None \/ vcid cli_args <> None ->
  connect K (kmc_sdls_props cli_args) = Ok k ->
  exists f,
    run K cli_args
    = (Raise ValueError, mkWorld (Some f) [EvInit (kmc_sdls_props cli_args)]).
Proof.
  intros Hp Ht Hup Hf Hid Hk. apply parse_args_well_resolved in Hp as Hw.
  destruct (setup_resolved K cli_args Hw) as (t & Hn & _ & Hnc).
  assert (Ec : conflicting cli_args = false) by (unfold conflicting; now rewrite Hf).
  destruct (Hnc Ec) as (f' & Ef & Es).
  destruct (apply_overrides_ok t cli_args (new_frame t) [] Hw Ec)
    as (f'' & Ef' & Hcls & _ & _ & _ & Hhex & Hov & _).
  rewrite Ef in Ef'. injection Ef' as <-.
  rewrite Ht in Hn.
  assert (Hraise : to_hex f' = Raise ValueError).
  { apply stub_to_hex_raises.
    - rewrite Hcls. destruct t; [|discriminate|discriminate].
      simpl in Hn. destruct Hup as [Hup|Hup]; rewrite Hup in Hn; discriminate Hn.
    - rewrite Hhex, Hf. now destruct t.
    - rewrite Hov. destruct Hw as (Hs & Hv & _).
      destruct Hid as [Hid|Hid].
      + destruct (scid cli_args) as [s|]; [|contradiction].
        rewrite (truthy_some s (proj1 (Hs s eq_refl))).
        now rewrite orb_true_r.
      + destruct (vcid cli_args) as [v|]; [|contradiction].
        rewrite (truthy_some v (proj1 (Hv v eq_refl))).
        now rewrite !orb_true_r. }
  exists f'. unfold run, main. unfold bind at 1. rewrite Es.
  unfold bind. rewrite (prepare_eval K cli_args f' [] k Hk), Hraise. reflexivity.
Qed.

(** A resolved run with a whole-frame override and no identifier
    override works on that text whatever the frame type: the client is
    constructed, the text is printed as given, and its decoded bytes are
    what the security calls start from; a text that is not an even
    number of hexadecimal digits stops the run there with
    [binascii.Error]. *)
Theorem whole_frame_override_run (K : KmcSdlsClient) (fs : filesystem)
  (dp : string) (argv : list cli_option) (cli_args : Args) (h : string)
  (k : client K) :
  parse_args fs dp argv = Ok cli_args ->
  frame cli_args = Some h ->
  h <> "" ->
  scid cli_args = None ->
  vcid cli_args = None ->
  connect K (kmc_sdls_props cli_args) = Ok k ->
  exists f,
    to_hex f = Ok h
    /\ let w := mkWorld (Some f)
                  [EvInit (kmc_sdls_props cli_args); frame_banner h] in
       match Py.unhexlify h with
       | Ok tc => setup K cli_args world0 = (Ok (cls f, k, tc), w)
       | Raise e => e = BinasciiError /\ run K cli_args = (Raise e, w)
       end.
Proof.
  intros Hp Hf Hh Hs Hv Hk. apply parse_args_well_resolved in Hp as Hw.
  destruct (setup_resolved K cli_args Hw) as (t & Hn & _ & Hnc).
  assert (Ec : conflicting cli_args = false)
    by (unfold conflicting; rewrite Hs, Hv; apply andb_false_r).
  destruct (Hnc Ec) as (f' & Ef & Es).
  destruct (apply_overrides_ok t cli_args (new_frame t) [] Hw Ec)
    as (f'' & Ef' & Hcls & _ & _ & _ & Hhex & _).
  rewrite Ef in Ef'. injection Ef' as <-.
  rewrite Hf, (truthy_some h Hh) in Hhex.
  assert (Hto : to_hex f' = Ok h) by (now apply to_hex_override_hex_value).
  exists f'. split; [exact Hto|]. cbv zeta.
  assert (Hct : cls f' = t) by (rewrite Hcls; now destruct t).
  destruct (Py.unhexlify h) as [tc|e] eqn:Eu.
  - rewrite Es. unfold bind.
    rewrite (prepare_eval K cli_args f' [] k Hk), Hto. cbv zeta. rewrite Eu.
    unfold ret. now rewrite Hct.
  - split; [now apply unhexlify_raises in Eu|].
    unfold run, main. unfold bind at 1. rewrite Es. unfold bind.
    rewrite (prepare_eval K cli_args f' [] k Hk), Hto. cbv zeta. rewrite Eu.
    reflexivity.
Qed.

(** When the client's constructor raises, a resolved run without
    conflicting overrides ends with that exception right there: the
    frame is not serialised, nothing is printed, no security call is
    made. *)
Theorem connect_failure_stops_run (K : KmcSdlsClient) (fs : filesystem)
  (dp : string) (argv : list cli_option) (cli_args : Args) (e : exn) :
  parse_args fs dp argv = Ok cli_args ->
  conflicting cli_args = false ->
  connect K (kmc_sdls_props cli_args) = Raise e ->
  exists f,
    run K cli_args = (Raise e, mkWorld (Some f) [EvInit (kmc_sdls_props cli_args)]).
Proof.
  intros Hp Ec Hk. apply parse_args_well_resolved in Hp as Hw.
  destruct (setup_resolved K cli_args Hw) as (t & Hn & _ & Hnc).
  destruct (Hnc Ec) as (f' & Ef & Es).
  exists f'. unfold run, main. unfold bind at 1. rewrite Es.
  unfold bind, prepare. unfold_m. cbn [cur_frame out]. rewrite Hk. reflexivity.
Qed.

(** ** What a run never changes, and where it stops *)

Lemma apply_overrides_keeps (f_type : ftype) (cli_args : Args) (w : world) (f : Frame) :
  cur_frame w = Some f ->
  exists f', cur_frame (snd (apply_overrides f_type cli_args w)) = Some f'
             /\ cls f' = cls f
             /\ frame_body_hex f' = frame_body_hex f
             /\ frame_header_hex f' = frame_header_hex f
             /\ default_frame_hex f' = default_frame_hex f.
Proof.
  intros Hf. unfold apply_overrides. unfold_m.
  destruct w as [cf o]. simpl in Hf. subst cf.
  repeat (break_match; simpl); eexists; repeat split; reflexivity.
Qed.

(** Whatever the configuration, the frame a run leaves behind has the
    body, the header literal and the default literal its class was
    constructed with: [main] overrides identifiers and the whole frame,
    never the body. *)
Theorem run_keeps_frame_literals (K : KmcSdlsClient) (cli_args : Args) (f : Frame) :
  cur_frame (snd (run K cli_args)) = Some f ->
  frame_body_hex f = frame_body_hex (new_frame (cls f))
  /\ frame_header_hex f = frame_header_hex (new_frame (cls f))
  /\ default_frame_hex f = default_frame_hex (new_frame (cls f)).
Proof.
  rewrite run_frame. unfold setup. unfold bind at 1.
  destruct (select_frame_cases cli_args world0) as [[t E]|[msg E]]; rewrite E;
    [|discriminate].
  unfold bind at 1.
  destruct (apply_overrides_keeps t cli_args
              (mkWorld (Some (new_frame t)) (out world0)) (new_frame t) eq_refl)
    as (f' & Hf' & Hc & Hb & Hh & Hd).
  assert (Hcls : cls (new_frame t) = t) by now destruct t.
  destruct (apply_overrides t cli_args _) as [[[]|e] w1]; simpl in Hf'.
  - unfold bind.
    pose proof (prepare_frame K cli_args w1) as Hp.
    destruct (prepare K cli_args w1) as [[[k tc]|e] w2]; simpl in Hp |- *;
      rewrite Hp, Hf'; intros [= <-]; rewrite Hc, Hcls; auto.
  - simpl. rewrite Hf'. intros [= <-]. rewrite Hc, Hcls. auto.
Qed.

(** A security call that raises ends the run at that call.  When apply
    raises, process is not called and nothing more is printed; when
    process raises, on the raw frame or on what apply returned, no
    report is printed. *)
Theorem security_failure_aborts (K : KmcSdlsClient) (k : client K) (f_type : ftype)
  (cli_args : Args) (tc : bytes) (w : world) (e : exn) :
  (process_only cli_args = false \/ apply_only cli_args = true ->
   apply_fn K f_type k tc = Raise e ->
   orchestrate K k f_type cli_args tc w
   = (Raise e, mkWorld (cur_frame w) (out w ++ [EvApply f_type tc])))
  /\ (process_only cli_args = true -> apply_only cli_args = false ->
      process_fn K f_type k tc = Raise e ->
      orchestrate K k f_type cli_args tc w
      = (Raise e, mkWorld (cur_frame w) (out w ++ [EvProcess f_type tc])))
  /\ (forall r k', process_only cli_args = apply_only cli_args ->
      apply_fn K f_type k tc = Ok (r, k') ->
      process_fn K f_type k' r = Raise e ->
      orchestrate K k f_type cli_args tc w
      = (Raise e,
         mkWorld (cur_frame w)
                 (out w ++ [EvApply f_type tc; apply_banner r; EvProcess f_type r]))).
Proof.
  unfold orchestrate, apply_banner. unfold_m. destruct w as [cf o].
  cbn [cur_frame out].
  split; [|split].
  - intros Hrun He.
    destruct (process_only cli_args), (apply_only cli_args);
      cbn [negb orb andb]; try (destruct Hrun; discriminate);
      rewrite He; reflexivity.
  - intros -> -> He. cbn [negb orb andb cur_frame out]. rewrite He. reflexivity.
  - intros r k' Hpa Ha Hp. rewrite Hpa.
    destruct (apply_only cli_args); cbn [negb orb andb cur_frame out];
      rewrite Ha; cbn [cur_frame out]; rewrite Hp; cbn [cur_frame out];
      rewrite <- !app_assoc; reflexivity.
Qed.

Lemma orchestrate_apply_only (K : KmcSdlsClient) (k : client K) (f_type : ftype)
  (cli_args : Args) (tc : bytes) (w : world) :
  apply_only cli_args = true -> process_only cli_args = false ->
  exists tail,
    out (snd (orchestrate K k f_type cli_args tc w)) = (out w ++ tail)%list
    /\ (tail = [EvApply f_type tc]
        \/ exists r, tail = [EvApply f_type tc; apply_banner r]).
Proof.
  intros Ha Hp. unfold orchestrate, apply_banner. unfold_m. destruct w as [cf o].
  rewrite Ha, Hp. cbn [negb orb andb cur_frame out].
  destruct (apply_fn K f_type k tc) as [[r k']|e]; cbn [cur_frame out snd].
  - rewrite <- app_assoc. eexists. split; [reflexivity|]. right.
    exists r. reflexivity.
  - eexists. split; [reflexivity|]. now left.
Qed.

(** With apply_only set and process_only not, no run calls a
    process-security operation or prints a report, whatever the client
    does; after the set-up the run is the one apply call of the frame
    type on the decoded frame: when it returns the run prints what it
    returned and ends, when it raises the run ends with its
    exception. *)
Theorem apply_only_never_processes (K : KmcSdlsClient) (cli_args : Args) :
  apply_only cli_args = true ->
  process_only cli_args = false ->
  (forall op data, ~ In (EvProcess op data) (out (snd (run K cli_args))))
  /\ (forall fmt res, ~ In (EvReport fmt res) (out (snd (run K cli_args))))
  /\ (forall f_type k tc w,
        setup K cli_args world0 = (Ok (f_type, k, tc), w) ->
        run K cli_args
        = match apply_fn K f_type k tc with
          | Ok (r, _) =>
              (Ok tt,
               mkWorld (cur_frame w)
                 (out w ++ [EvApply f_type tc;
                            EvPrint ("SDLS TC Apply Security Result:"
                                     ++ nl ++ hex r ++ nl)]))
          | Raise e =>
              (Raise e, mkWorld (cur_frame w) (out w ++ [EvApply f_type tc]))
          end).
Proof.
  intros Ha Hp.
  pose proof (setup_cases K cli_args) as Hs. cbv zeta in Hs.
  assert (Hall : forall ev, In ev (out (snd (run K cli_args))) ->
                            match ev with
                            | EvProcess _ _ | EvReport _ _ => False
                            | _ => True
                            end).
  { intros ev. unfold run, main. unfold bind.
    destruct (setup K cli_args world0) as [[[[f_type k] tc]|e] w].
    - destruct Hs as (f & h & _ & _ & _ & _ & _ & Ho).
      destruct (orchestrate_apply_only K k f_type cli_args tc w Ha Hp)
        as (tail & -> & Ht).
      rewrite Ho. unfold frame_banner, apply_banner in *.
      destruct Ht as [->|[r ->]]; simpl; intros Hin;
        repeat (destruct Hin as [<-|Hin]; [exact I|]); destruct Hin.
    - simpl. unfold frame_banner in Hs.
      destruct Hs as [->|[->|[h ->]]]; simpl; intros Hin;
        repeat (destruct Hin as [<-|Hin]; [exact I|]); destruct Hin. }
  split; [|split].
  - intros op data Hin. exact (Hall _ Hin).
  - intros fmt res Hin. exact (Hall _ Hin).
  - intros f_type k tc w Es. unfold run, main. unfold bind at 1. rewrite Es.
    unfold orchestrate. unfold_m. rewrite Ha, Hp. cbn [negb orb andb].
    destruct w as [cf o]. cbn [cur_frame out].
    destruct (apply_fn K f_type k tc) as [[r k']|e]; cbn [cur_frame out];
      rewrite <- ?app_assoc; reflexivity.
Qed.

(** ** The identifier strings of a run *)

Lemma format_spaces_width (w : nat) (n : Z) :
  0 <= n -> (2 <= w)%nat ->
  (String.length (Py.format false w Bin n) = w <-> n < 2 ^ Z.of_nat w)
  /\ (all_binary (Py.format false w Bin n) = true <-> 2 ^ Z.of_nat (w - 1) <= n).
Proof.
  intros Hn Hw. unfold Py.format, all_binary.
  destruct (Z.ltb_spec n 0) as [H|_]; [lia|].
  rewrite str_length, chars_str. cbn [List.length app Py.digits_of_abs].
  rewrite Nat.sub_0_r, length_app, repeat_length, length_map.
  assert (Hbits : (List.length (Py.bits_of_abs n) <= w)%nat <-> n < 2 ^ Z.of_nat w).
  { destruct n as [|p|p]; [| |lia]; simpl.
    - assert (0 < 2 ^ Z.of_nat w) by (apply Z.pow_pos_nonneg; lia). lia.
    - rewrite bits_of_pos_length. apply size_nat_bound. }
  assert (Hfull : (List.length (Py.bits_of_abs n) <= w - 1)%nat
                  <-> n < 2 ^ Z.of_nat (w - 1)).
  { destruct n as [|p|p]; [| |lia]; simpl.
    - assert (0 < 2 ^ Z.of_nat (w - 1)) by (apply Z.pow_pos_nonneg; lia). lia.
    - rewrite bits_of_pos_length. apply size_nat_bound. }
  assert (Hbody : forallb is_binary_digit (map Py.bit_char (Py.bits_of_abs n)) = true).
  { apply forallb_forall. intros c Hc. apply in_map_iff in Hc as [b [<- _]].
    now destruct b. }
  split; [lia|].
  rewrite forallb_app, Hbody, andb_true_r.
  destruct (w - List.length (Py.bits_of_abs n))%nat as [|m] eqn:E; simpl.
  - split; [intros _|reflexivity]. lia.
  - split; [discriminate|]. intros H. lia.
Qed.

(** The strings that lines 233-249 build from an identifier that is not
    negative have the width of their field exactly when the identifier
    fits it: SC-ID ten characters up to 1023 for TC and TM but eight
    only up to 255 for AOS, VC-ID six up to 63 for TC and AOS and three
    up to 7 for TM.  They are made of binary digits, except the TM
    SC-ID, which is padded with spaces below 512. *)
Theorem id_string_widths (n : Z) :
  0 <= n ->
  (String.length (scid_format FTC n) = 10%nat <-> n <= 1023)
  /\ (String.length (scid_format FTM n) = 10%nat <-> n <= 1023)
  /\ (String.length (scid_format FAOS n) = 8%nat <-> n <= 255)
  /\ (String.length (vcid_format FTC n) = 6%nat <-> n <= 63)
  /\ (String.length (vcid_format FTM n) = 3%nat <-> n <= 7)
  /\ (String.length (vcid_format FAOS n) = 6%nat <-> n <= 63)
  /\ all_binary (scid_format FTC n) = true
  /\ all_binary (scid_format FAOS n) = true
  /\ (forall t, all_binary (vcid_format t n) = true)
  /\ (all_binary (scid_format FTM n) = true <-> 512 <= n).
Proof.
  intros Hn. unfold scid_format, vcid_format.
  destruct (format_width 10 n Hn) as [_ H10]; [lia|].
  destruct (format_width 8 n Hn) as [_ H8]; [lia|].
  destruct (format_width 6 n Hn) as [_ H6]; [lia|].
  destruct (format_width 3 n Hn) as [_ H3]; [lia|].
  destruct (format_spaces_width 10 n Hn) as [S10 B10]; [lia|].
  change (2 ^ Z.of_nat 10) with 1024 in *.
  change (2 ^ Z.of_nat 8) with 256 in *.
  change (2 ^ Z.of_nat 6) with 64 in *.
  change (2 ^ Z.of_nat 3) with 8 in *.
  change (2 ^ Z.of_nat (10 - 1)) with 512 in *.
  repeat split;
    try (intros H; first [apply H10 in H | apply S10 in H | apply H8 in H
                          | apply H6 in H | apply H3 in H]; lia);
    try (intros H; first [apply H10 | apply S10 | apply H8
                          | apply H6 | apply H3]; lia);
    try (apply format_nonnegative_binary; exact Hn);
    try (intros t; destruct t; apply format_nonnegative_binary; exact Hn);
    try (apply B10).
Qed.

(** In a resolved run without conflicting overrides the frame that is
    left is the constructed one with exactly the given overrides: the
    SC-ID and VC-ID strings are the formatted numbers of the options
    present and the class defaults otherwise, the whole-frame text is
    set when one was given and is not empty, and the override flag is
    set exactly when some override was given. *)
Theorem resolved_run_frame (K : KmcSdlsClient) (fs : filesystem)
  (dp : string) (argv : list cli_option) (cli_args : Args) :
  parse_args fs dp argv = Ok cli_args ->
  conflicting cli_args = false ->
  exists f,
    cur_frame (snd (run K cli_args)) = Some f
    /\ (forall s, scid cli_args = Some s ->
        exists n, Py.int 10 s = Ok n /\ sc_id f = scid_format (cls f) n)
    /\ (scid cli_args = None -> sc_id f = sc_id (new_frame (cls f)))
    /\ (forall v, vcid cli_args = Some v ->
        exists n, Py.int 10 v = Ok n /\ vc_id f = vcid_format (cls f) n)
    /\ (vcid cli_args = None -> vc_id f = vc_id (new_frame (cls f)))
    /\ hex_value f = (if Py.truthy (frame cli_args) then frame cli_args else None)
    /\ override f
       = (Py.truthy (scid cli_args) || Py.truthy (vcid cli_args)
          || Py.truthy (frame cli_args)).
Proof.
  intros Hp Ec. apply parse_args_well_resolved in Hp as Hw.
  destruct (setup_resolved K cli_args Hw) as (t & Hn & _ & Hnc).
  destruct (Hnc Ec) as (f' & Ef & Es).
  destruct (apply_overrides_ok t cli_args (new_frame t) [] Hw Ec)
    as (f'' & Ef' & Hcls & _ & _ & _ & Hhex & Hov & Hsc & Hsc0 & Hvc & Hvc0).
  rewrite Ef in Ef'. injection Ef' as <-.
  assert (Ht : cls f' = t) by (rewrite Hcls; now destruct t).
  exists f'. split.
  { rewrite run_frame, Es. unfold bind.
    pose proof (prepare_frame K cli_args (mkWorld (Some f') [])) as Hpf.
    destruct (prepare K cli_args _) as [[[k tc]|e] w']; exact Hpf. }
  rewrite Ht. destruct Hw as (Hs & Hv & _).
  split; [|split; [|split; [|split; [|split]]]].
  - intros s E. destruct (Hs s E) as (_ & n & Hi). exists n.
    split; [exact Hi|]. exact (Hsc s n E Hi).
  - exact Hsc0.
  - intros v E. destruct (Hv v E) as (_ & n & Hi). exists n.
    split; [exact Hi|]. exact (Hvc v n E Hi).
  - exact Hvc0.
  - rewrite Hhex. now destruct t.
  - rewrite Hov. now destruct t.
Qed.

(** ** More on the frame model *)

Lemma mutate_kept (f : Frame) (m : mutation) :
  cls (mutate f m) = cls f
  /\ (override f = true -> override (mutate f m) = true).
Proof. destruct m; split; auto. Qed.

Lemma mutations_kept (ms : list mutation) (f : Frame) :
  cls (fold_left mutate ms f) = cls f
  /\ (override f = true -> override (fold_left mutate ms f) = true).
Proof.
  revert f. induction ms as [|m ms IH]; intros f; simpl; [auto|].
  destruct (IH (mutate f m)) as [Hc Ho]. destruct (mutate_kept f m) as [Hc' Ho'].
  split; [congruence|auto].
Qed.

(** On a TM or an AOS frame a field override cannot be undone: after an
    SC-ID or VC-ID override, whatever identifier or body changes follow,
    also back to the default values, [to_hex] raises [ValueError]. *)
Theorem tm_aos_field_override_is_final (value : string) (later : list mutation) :
  to_hex (fold_left mutate later (override_scid TM.init value)) = Raise ValueError
  /\ to_hex (fold_left mutate later (override_vcid TM.init value)) = Raise ValueError
  /\ to_hex (fold_left mutate later (override_scid AOS.init value)) = Raise ValueError
  /\ to_hex (fold_left mutate later (override_vcid AOS.init value)) = Raise ValueError.
Proof.
  repeat split; apply stub_to_hex_raises;
    try (rewrite (proj1 (mutations_kept later _)); discriminate);
    try (rewrite mutations_hex_value; reflexivity);
    try (apply (proj2 (mutations_kept later _)); reflexivity).
Qed.

Lemma string_app_empty (s : string) : s ++ "" = s.
Proof. induction s as [|c s IH]; simpl; [reflexivity|now rewrite IH]. Qed.

(** [set_body] shows in [to_hex] only on the field-by-field path of TC:
    a frame without override keeps serialising to the default literal,
    which was built at construction, whereas an overridden TC frame
    serialises to the same header followed by the new body. *)
Theorem set_body_effect (body : string) :
  (forall t, to_hex (set_body (new_frame t) body) = to_hex (new_frame t))
  /\ (forall f text, to_hex (set_body (override_hex f text) body) = Ok text)
  /\ (forall f,
        cls f = FTC -> hex_value f = None -> override f = true ->
        to_hex (set_body f body)
        = rbind (to_hex (set_body f "")) (fun header => Ok (header ++ body))).
Proof.
  split; [|split].
  - intros t. destruct t; reflexivity.
  - intros f text. apply to_hex_override_hex_value. reflexivity.
  - intros f Hc Hh Ho. unfold to_hex, TC.to_hex, set_body.
    cbn [cls hex_value override frame_body_hex sc_id vc_id].
    rewrite Hc, Hh, Ho. cbn [negb]. cbv iota.
    destruct (Py.int 2 _) as [n|e]; cbn [rbind]; [|reflexivity].
    now rewrite string_app_empty.
Qed.

(** ** Configuration lines, continued *)

Lemma lstrip_is_suffix (l : list ascii) :
  exists dropped, l = (dropped ++ Py.lstrip_chars l)%list.
Proof.
  induction l as [|c l [d IH]]; simpl.
  - exists []. reflexivity.
  - destruct (Py.isspace c).
    + exists (c :: d). simpl. now rewrite <- IH.
    + exists []. reflexivity.
Qed.

Lemma lstrip_idempotent (l : list ascii) :
  Py.lstrip_chars (Py.lstrip_chars l) = Py.lstrip_chars l.
Proof.
  induction l as [|c l IH]; simpl; [reflexivity|].
  destruct (Py.isspace c) eqn:E; [exact IH|]. simpl. now rewrite E.
Qed.

Lemma rstrip_idempotent (s : string) : Py.rstrip (Py.rstrip s) = Py.rstrip s.
Proof.
  unfold Py.rstrip, Py.rstrip_chars. rewrite chars_str, rev_involutive.
  now rewrite lstrip_idempotent.
Qed.

Lemma rstrip_is_prefix (s : string) : exists rest, s = Py.rstrip s ++ rest.
Proof.
  unfold Py.rstrip, Py.rstrip_chars.
  destruct (lstrip_is_suffix (rev (Py.chars s))) as [d Hd].
  exists (Py.str (rev d)).
  rewrite <- str_app, <- rev_app_distr, <- Hd, rev_involutive.
  symmetry. apply str_chars.
Qed.

Lemma keep_after_strip (line : string) :
  Py.startswith "#" line = false -> Py.startswith "#" (Py.rstrip line) = false.
Proof.
  intros H. destruct (rstrip_is_prefix line) as [rest Hr].
  destruct (Py.rstrip line) as [|c p]; [reflexivity|].
  rewrite Hr in H. change (String c p ++ rest) with (String c (p ++ rest)) in H.
  rewrite startswith_hash_cons in *. exact H.
Qed.

(** No configuration line handed to the client is empty, starts with
    [#] or ends in white space, and there are at most as many of them as
    the properties text has lines. *)
Theorem props_are_clean (cli_args : Args) :
  (forall p, In p (kmc_sdls_props cli_args) ->
     p <> "" /\ Py.startswith "#" p = false /\ Py.rstrip p = p)
  /\ (List.length (kmc_sdls_props cli_args)
      <= List.length (readlines (properties cli_args)))%nat.
Proof.
  unfold kmc_sdls_props. rewrite collect_props_acc. cbn [app].
  split.
  - intros p Hp. apply in_map_iff in Hp as (line & <- & Hl).
    apply filter_In in Hl as [_ Hk]. apply andb_true_iff in Hk as [Hh He].
    apply negb_true_iff in Hh. apply negb_true_iff in He.
    split; [|split].
    + intros E. rewrite E in He. discriminate He.
    + now apply keep_after_strip.
    + apply rstrip_idempotent.
  - rewrite length_map. apply filter_length_le.
Qed.

Lemma code_line_feed (c : ascii) : Py.code c = 10 -> c = "010"%char.
Proof.
  unfold Py.code. intros H.
  rewrite <- (ascii_N_embedding c).
  replace (N_of_ascii c) with 10%N by lia. reflexivity.
Qed.

Lemma readlines_after_cr (l cur : list ascii) :
  match l with
  | c :: _ => (Py.code c =? 10) = false
  | [] => True
  end ->
  readlines_from cur true l = readlines_from cur false l.
Proof.
  destruct l as [|c l]; [reflexivity|]. intros H. simpl. now rewrite H.
Qed.

Lemma readlines_crlf (l cur : list ascii) :
  existsb (fun c => Py.code c =? 13) l = false ->
  readlines_from cur false (crlf_chars l) = readlines_from cur false l.
Proof.
  revert cur. induction l as [|c l IH]; intros cur H; [reflexivity|].
  simpl in H. apply orb_false_iff in H as [Hc Hl].
  cbn [crlf_chars flat_map]. fold (crlf_chars l).
  destruct (Py.code c =? 10) eqn:E.
  - apply Z.eqb_eq in E. apply code_line_feed in E. subst c.
    cbn [app]. simpl. now rewrite (IH [] Hl).
  - cbn [app]. simpl. rewrite E, Hc. apply IH. exact Hl.
Qed.

Lemma readlines_cr (l cur : list ascii) :
  existsb (fun c => Py.code c =? 13) l = false ->
  readlines_from cur false (cr_chars l) = readlines_from cur false l.
Proof.
  revert cur. induction l as [|c l IH]; intros cur H; [reflexivity|].
  simpl in H. apply orb_false_iff in H as [Hc Hl].
  cbn [cr_chars map]. fold (cr_chars l).
  destruct (Py.code c =? 10) eqn:E.
  - apply Z.eqb_eq in E. apply code_line_feed in E. subst c.
    simpl. rewrite readlines_after_cr; [now rewrite (IH [] Hl)|].
    destruct l as [|d l]; [exact I|]. cbn [cr_chars map].
    destruct (Py.code d =? 10) eqn:Ed; [reflexivity|exact Ed].
  - simpl. rewrite E, Hc. apply IH. exact Hl.
Qed.

(** The configuration lines do not depend on the line ends of the
    properties file: a text whose lines end in line feeds gives the same
    lines when every line end is written as carriage return and line
    feed, or as a carriage return alone. *)
Theorem props_ignore_line_ends (cli_args : Args) :
  has_cr (properties cli_args) = false ->
  kmc_sdls_props (with_properties cli_args (with_crlf (properties cli_args)))
  = kmc_sdls_props cli_args
  /\ kmc_sdls_props (with_properties cli_args (with_cr (properties cli_args)))
     = kmc_sdls_props cli_args.
Proof.
  intros H. unfold has_cr in H.
  unfold kmc_sdls_props, with_properties, readlines, with_crlf, with_cr.
  cbn [properties]. rewrite !chars_str.
  now rewrite readlines_crlf, readlines_cr.
Qed.

(** ** Bytes and hexadecimal text *)

Lemma hex_of_byte_decodes (b : Byte.byte) (l : list ascii) :
  Py.unhexlify_chars (hex_of_byte b ++ l)
  = match Py.unhexlify_chars l with
    | Ok bs => Ok (b :: bs)
    | Raise e => Raise e
    end.
Proof. destruct b; reflexivity. Qed.

(** Decoding the hexadecimal text of a byte sequence gives the sequence
    back, and whatever [unhexlify] decodes has two digits per byte; a
    text of odd length is refused. *)
Theorem unhexlify_round_trip :
  (forall data, Py.unhexlify (hex data) = Ok data)
  /\ (forall h data, Py.unhexlify h = Ok data ->
        String.length h = (2 * List.length data)%nat)
  /\ (forall h, Nat.odd (String.length h) = true ->
        Py.unhexlify h = Raise BinasciiError).
Proof.
  split; [|split].
  - intros data. unfold Py.unhexlify, hex. rewrite chars_str.
    induction data as [|b data IH]; [reflexivity|].
    cbn [flat_map]. now rewrite hex_of_byte_decodes, IH.
  - intros h data H. rewrite <- (str_chars h) at 1. rewrite str_length.
    apply (unhexlify_chars_length (List.length (Py.chars h))); [lia|exact H].
  - intros h Hodd. destruct (Py.unhexlify h) as [data|e] eqn:E.
    + exfalso.
      assert (Hl : String.length h = (2 * List.length data)%nat).
      { rewrite <- (str_chars h) at 1. rewrite str_length.
        apply (unhexlify_chars_length (List.length (Py.chars h))); [lia|exact E]. }
      rewrite Hl, Nat.odd_mul in Hodd. discriminate Hodd.
    + now apply unhexlify_raises in E as ->.
Qed.

(** ** Reports and the script as a whole *)


Lemma conflict_message (f_type : ftype) (cli_args : Args) (w : world) :
  conflicting cli_args = true ->
  apply_overrides f_type cli_args w
  = (Raise (ArgumentException
       "Can't have both Custom Frame override and (SC_ID or VC_ID) overrides specified at the same time."),
     w).
Proof.
  intros H. unfold conflicting in H. unfold apply_overrides. unfold_m.
  rewrite H. reflexivity.
Qed.

(** The script ends with status 1 on every path.  A command line the
    parser refuses prints nothing on standard output; conflicting
    overrides print the one line of the argument error; a run that
    [main] completes prints no error line; any other exception prints
    the line of the unexpected error after what the run had printed. *)
Theorem script_outcomes (K : KmcSdlsClient) (describe : exn -> string)
  (fs : filesystem) (dp : string) (argv : list cli_option) :
  snd (script K describe fs dp argv) = 1
  /\ (forall e, parse_args fs dp argv = Raise e ->
      script K describe fs dp argv = ([], 1))
  /\ (forall cli_args,
        parse_args fs dp argv = Ok cli_args ->
        (conflicting cli_args = true ->
         script K describe fs dp argv
         = ([EvPrint
               "Command Line Argument Error:  Can't have both Custom Frame override and (SC_ID or VC_ID) overrides specified at the same time."],
            1))
        /\ (fst (run K cli_args) = Ok tt ->
            script K describe fs dp argv = (out (snd (run K cli_args)), 1))
        /\ (forall e,
              fst (run K cli_args) = Raise e ->
              (forall msg, e <> ArgumentException msg) ->
              script K describe fs dp argv
              = ((out (snd (run K cli_args))
                  ++ [EvPrint ("Encountered an unexpected error:  " ++ describe e)])%list,
                 1))).
Proof.
  unfold script. split; [|split].
  - destruct (parse_args fs dp argv) as [cli_args|e]; [|reflexivity].
    destruct (run K cli_args); reflexivity.
  - intros e ->. reflexivity.
  - intros cli_args Hp. rewrite Hp. split; [|split].
    + intros Hc. apply parse_args_well_resolved in Hp as Hw.
      destruct Hw as (_ & _ & Ht).
      destruct (select_frame_valid cli_args world0 Ht) as [t Et].
      unfold run, main, setup. unfold bind.
      rewrite Et, (conflict_message t cli_args _ Hc). reflexivity.
    + destruct (run K cli_args) as [[[]|e] w]; [|discriminate].
      intros _. simpl. now rewrite app_nil_r.
    + intros e. destruct (run K cli_args) as [[[]|e'] w]; [discriminate|].
      intros [= ->] Hne. simpl. destruct e; try reflexivity.
      exfalso. exact (Hne msg eq_refl).
Qed.

(** A run in which both security calls return, with both flags set or
    neither, does exactly this to the outside, in this order: it
    constructs the client, prints the frame, calls apply on the decoded
    frame, prints what apply returned under a heading that says TC for
    every frame type, calls process on what apply returned and on the
    client apply left, prints the heading of the frame type and reports
    what process returned. *)
Theorem complete_run_trace (K : KmcSdlsClient) (cli_args : Args) (f_type : ftype)
  (k k1 k2 : client K) (tc r : bytes) (res : SecurityResult) (w : world) :
  process_only cli_args = apply_only cli_args ->
  setup K cli_args world0 = (Ok (f_type, k, tc), w) ->
  apply_fn K f_type k tc = Ok (r, k1) ->
  process_fn K f_type k1 r = Ok (res, k2) ->
  exists h,
    Py.unhexlify h = Ok tc
    /\ run K cli_args
       = (Ok tt,
          mkWorld (cur_frame w)
            [ EvInit (kmc_sdls_props cli_args);
              EvPrint ("Using telecommand transfer frame: " ++ nl ++ h ++ nl);
              EvApply f_type tc;
              EvPrint ("SDLS TC Apply Security Result:" ++ nl ++ hex r ++ nl);
              EvProcess f_type r;
              EvPrint ("SDLS " ++ ftype_name f_type ++ " Process Security Result:");
              EvReport f_type res ]).
Proof.
  intros Hpa Es Ha Hp.
  pose proof (setup_cases K cli_args) as Hs. cbv zeta in Hs. rewrite Es in Hs.
  destruct Hs as (f & h & _ & _ & _ & Hu & _ & Ho).
  exists h. split; [exact Hu|].
  unfold run, main. unfold bind at 1. rewrite Es.
  unfold orchestrate. unfold_m. destruct w as [cf o]. cbn [out cur_frame] in *.
  subst o. unfold frame_banner. rewrite Hpa.
  destruct (apply_only cli_args); cbn [negb orb andb cur_frame out];
    rewrite Ha; cbn [cur_frame out]; rewrite Hp; reflexivity.
Qed.

(** ** Instances of the further properties *)

Lemma validators_accept_any_digits_witness :
  "4096" <> "" /\ all_decimal "4096" = true
  /\ Z.of_nat (String.length "4096") <= 4300
  /\ scid_type "4096" = Ok "4096" /\ vcid_type "4096" = Ok "4096"
  /\ scid_type "-4096" = Ok "-4096" /\ vcid_type "-4096" = Ok "-4096".
Proof.
  split; [discriminate|]. split; [reflexivity|].
  assert (Hl : Z.of_nat (String.length "4096") <= 4300) by (simpl; lia).
  split; [exact Hl|].
  exact (proj1 (validators_accept_any_digits "4096" ltac:(discriminate) eq_refl) Hl).
Defined.

Lemma tc_nonnegative_ids_serialise_witness :
  (forall n, Some 5000 = Some n -> 0 <= n)
  /\ (forall n, Some 70 = Some n -> 0 <= n)
  /\ exists h,
       to_hex (tc_with (Some 5000) (Some 70)) = Ok (h ++ "0001bd37")
       /\ h <> ""
       /\ all_hex (h ++ "0001bd37") = true.
Proof.
  assert (H1 : forall n, Some 5000 = Some n -> 0 <= n) by (intros n [= <-]; lia).
  assert (H2 : forall n, Some 70 = Some n -> 0 <= n) by (intros n [= <-]; lia).
  split; [exact H1|]. split; [exact H2|].
  exact (tc_nonnegative_ids_serialise (Some 5000) (Some 70) H1 H2).
Defined.

Lemma props_ignore_line_ends_witness :
  has_cr (properties (with_properties sample_args ("a=1" ++ nl ++ "b=2" ++ nl)))
  = false
  /\ kmc_sdls_props
       (with_properties sample_args
          (String "a" (String "=" (String "1" (String "013" (String "010"
             (String "b" (String "=" (String "2" (String "013" (String "010"
                ""))))))))))) = ["a=1"; "b=2"]
  /\ kmc_sdls_props
       (with_properties sample_args
          (String "a" (String "=" (String "1" (String "013"
             (String "b" (String "=" (String "2" (String "013" ""))))))))) = ["a=1"; "b=2"].
Proof.
  split; [reflexivity|].
  destruct (props_ignore_line_ends
              (with_properties sample_args ("a=1" ++ nl ++ "b=2" ++ nl)) eq_refl)
    as [H1 H2].
  split; [exact H1|exact H2].
Defined.

Lemma tc_negative_id_raises_witness :
  (exists n, Some (-3) = Some n /\ n < 0)
  /\ to_hex (tc_with (Some (-3)) None) = Raise ValueError.
Proof.
  assert (H : exists n, Some (-3) = Some n /\ n < 0)
    by (exists (-3); split; [reflexivity|lia]).
  split; [exact H|].
  exact (tc_negative_id_raises (Some (-3)) None (or_introl H)).
Defined.

Lemma tc_in_range_round_trip_witness :
  0 <= 1023 <= 1023 /\ 0 <= 63 <= 63
  /\ exists h bits data,
       to_hex (tc_with (Some 1023) (Some 63)) = Ok h
       /\ String.length h = 18%nat
       /\ bits_of_hex h = Some bits
       /\ field 6 10 bits = "1111111111"
       /\ field 16 6 bits = "111111"
       /\ Py.unhexlify h = Ok data
       /\ List.length data = 9%nat.
Proof.
  split; [lia|]. split; [lia|].
  destruct (tc_in_range_round_trip 1023 63 ltac:(lia) ltac:(lia))
    as (h & bits & data & H1 & H2 & H3 & H4 & H5 & _ & H7 & H8).
  exists h, bits, data. repeat split; assumption.
Defined.

Lemma frame_class_follows_token_witness :
  parse_args empty_files "" [OptType "aos"]
  = Ok (mkArgs None "" false false None None (Some "aos"))
  /\ exists f,
       cur_frame (snd (run echo_client
                         (mkArgs None "" false false None None (Some "aos"))))
       = Some f
       /\ ftype_name (cls f) = "AOS".
Proof.
  split; [reflexivity|].
  exact (frame_class_follows_token echo_client empty_files "" [OptType "aos"]
           _ eq_refl).
Defined.

Lemma early_failure_iff_conflict_witness :
  parse_args empty_files "" sample_conflict
  = Ok (mkArgs (Some "202c0408000001bd37") "" false false (Some "44") None None)
  /\ out (snd (run echo_client
                 (mkArgs (Some "202c0408000001bd37") "" false false (Some "44")
                         None None))) = [].
Proof.
  split; [reflexivity|].
  destruct (early_failure_iff_conflict echo_client empty_files "" sample_conflict
              _ eq_refl) as [[_ H] _].
  exact (H eq_refl).
Defined.

Lemma tm_aos_id_override_stops_run_witness :
  parse_args empty_files "" [OptType "tm"; OptScid "5"]
  = Ok (mkArgs None "" false false (Some "5") None (Some "tm"))
  /\ Py.upper "tm" = "TM"
  /\ connect echo_client [] = Ok tt
  /\ exists f,
       run echo_client (mkArgs None "" false false (Some "5") None (Some "tm"))
       = (Raise ValueError, mkWorld (Some f) [EvInit []]).
Proof.
  split; [reflexivity|]. split; [reflexivity|]. split; [reflexivity|].
  apply (tm_aos_id_override_stops_run echo_client empty_files ""
           [OptType "tm"; OptScid "5"]
           (mkArgs None "" false false (Some "5") None (Some "tm")) "tm" tt).
  - reflexivity.
  - reflexivity.
  - left. reflexivity.
  - reflexivity.
  - left. discriminate.
  - reflexivity.
Defined.

Lemma whole_frame_override_run_witness :
  parse_args empty_files "" [OptType "TM"; OptFrame "c0ffee"]
  = Ok (mkArgs (Some "c0ffee") "" false false None None (Some "TM"))
  /\ "c0ffee" <> ""
  /\ exists f,
       to_hex f = Ok "c0ffee"
       /\ setup echo_client
            (mkArgs (Some "c0ffee") "" false false None None (Some "TM")) world0
          = (Ok (cls f, tt, [Byte.xc0; Byte.xff; Byte.xee]),
             mkWorld (Some f) [EvInit []; frame_banner "c0ffee"]).
Proof.
  split; [reflexivity|]. split; [discriminate|].
  destruct (whole_frame_override_run echo_client empty_files ""
              [OptType "TM"; OptFrame "c0ffee"] _ "c0ffee" tt eq_refl eq_refl
              ltac:(discriminate) eq_refl eq_refl eq_refl) as (f & Hf & H).
  exists f. split; [exact Hf|]. exact H.
Defined.

Lemma connect_failure_stops_run_witness :
  parse_args empty_files "" [] = Ok sample_args
  /\ conflicting sample_args = false
  /\ connect refusing_client (kmc_sdls_props sample_args) = Raise (ServiceError 1)
  /\ exists f,
       run refusing_client sample_args
       = (Raise (ServiceError 1), mkWorld (Some f) [EvInit []]).
Proof.
  split; [reflexivity|]. split; [reflexivity|]. split; [reflexivity|].
  exact (connect_failure_stops_run refusing_client empty_files "" [] sample_args
           (ServiceError 1) eq_refl eq_refl eq_refl).
Defined.

Lemma run_keeps_frame_literals_witness :
  cur_frame (snd (run echo_client
                    (mkArgs None "" false false (Some "7") (Some "2") None)))
  = Some (tc_with (Some 7) (Some 2))
  /\ frame_body_hex (tc_with (Some 7) (Some 2)) = "0001bd37"
  /\ default_frame_hex (tc_with (Some 7) (Some 2)) = "202c0408000001bd37".
Proof.
  split; [reflexivity|].
  destruct (run_keeps_frame_literals echo_client
              (mkArgs None "" false false (Some "7") (Some "2") None)
              (tc_with (Some 7) (Some 2)) eq_refl) as (H1 & _ & H3).
  split; [exact H1|exact H3].
Defined.

Lemma security_failure_aborts_witness :
  (process_only sample_args = false \/ apply_only sample_args = true)
  /\ apply_fn failing_client FTC tt sample_bytes = Raise (ServiceError 2)
  /\ orchestrate failing_client tt FTC sample_args sample_bytes world0
     = (Raise (ServiceError 2), mkWorld None [EvApply FTC sample_bytes]).
Proof.
  split; [left; reflexivity|]. split; [reflexivity|].
  exact (proj1 (security_failure_aborts failing_client tt FTC sample_args
                  sample_bytes world0 (ServiceError 2))
           (or_introl eq_refl) eq_refl).
Defined.

Lemma apply_only_never_processes_witness :
  apply_only sample_apply_only = true
  /\ process_only sample_apply_only = false
  /\ (forall op data,
        ~ In (EvProcess op data) (out (snd (run echo_client sample_apply_only))))
  /\ (forall fmt res,
        ~ In (EvReport fmt res) (out (snd (run echo_client sample_apply_only)))).
Proof.
  split; [reflexivity|]. split; [reflexivity|].
  destruct (apply_only_never_processes echo_client sample_apply_only
              eq_refl eq_refl) as (H1 & H2 & _).
  split; [exact H1|exact H2].
Defined.

Lemma id_string_widths_witness :
  0 <= 300
  /\ (String.length (scid_format FTC 300) = 10%nat <-> 300 <= 1023)
  /\ (String.length (scid_format FAOS 300) = 8%nat <-> 300 <= 255)
  /\ (all_binary (scid_format FTM 300) = true <-> 512 <= 300).
Proof.
  split; [lia|].
  destruct (id_string_widths 300 ltac:(lia))
    as (H1 & _ & H3 & _ & _ & _ & _ & _ & _ & H10).
  split; [exact H1|]. split; [exact H3|exact H10].
Defined.

Lemma resolved_run_frame_witness :
  parse_args empty_files "" [OptType "aos"; OptScid "300"; OptVcid "7"]
  = Ok (mkArgs None "" false false (Some "300") (Some "7") (Some "aos"))
  /\ conflicting (mkArgs None "" false false (Some "300") (Some "7") (Some "aos"))
     = false
  /\ exists f,
       cur_frame (snd (run echo_client
                         (mkArgs None "" false false (Some "300") (Some "7")
                                 (Some "aos")))) = Some f
       /\ override f = true.
Proof.
  split; [reflexivity|]. split; [reflexivity|].
  destruct (resolved_run_frame echo_client empty_files ""
              [OptType "aos"; OptScid "300"; OptVcid "7"] _ eq_refl eq_refl)
    as (f & Hf & _ & _ & _ & _ & _ & Ho).
  exists f. split; [exact Hf|exact Ho].
Defined.

Lemma complete_run_trace_witness :
  process_only sample_args = apply_only sample_args
  /\ exists h,
       Py.unhexlify h
       = Ok [Byte.x20; Byte.x2c; Byte.x04; Byte.x08; Byte.x00; Byte.x00;
             Byte.x01; Byte.xbd; Byte.x37]
       /\ fst (run echo_client sample_args) = Ok tt.
Proof.
  split; [reflexivity|].
  destruct (complete_run_trace echo_client sample_args FTC tt tt tt
              [Byte.x20; Byte.x2c; Byte.x04; Byte.x08; Byte.x00; Byte.x00;
               Byte.x01; Byte.xbd; Byte.x37]
              [Byte.x20; Byte.x2c; Byte.x04; Byte.x08; Byte.x00; Byte.x00;
               Byte.x01; Byte.xbd; Byte.x37]
              (mkSecurityResult 0 [] []
                 [Byte.x20; Byte.x2c; Byte.x04; Byte.x08; Byte.x00; Byte.x00;
                  Byte.x01; Byte.xbd; Byte.x37] [] 0)
              (snd (setup echo_client sample_args world0))
              eq_refl eq_refl eq_refl eq_refl) as (h & Hu & Hr).
  exists h. split; [exact Hu|]. now rewrite Hr.
Defined.
